(** * Coupang Partners crawler: a shallow embedding of [crawler.py]

    The class [CoupangPartnersCrawler] is a [requests.Session] with a
    stored token and a logger.  Its methods are embedded as computations
    in a state-and-exception monad over the instance ([self]) and the
    list of HTTP exchanges performed so far.  The network side of
    [requests.Session.get] / [.post] is a parameter ([Transport]); what
    the crawler builds, sends, logs, stores and returns is computed. *)

From stdpp Require Import gmap strings list fin_maps.
From Stdlib Require Import ZArith.

Open Scope Z_scope.

(* ===================================================================== *)
(** * Python values *)
(* ===================================================================== *)

(** The values [json.loads] can produce and [json.dumps] can consume:
    [None], [bool], [int], [float] (mantissa and binary exponent),
    [str] (its UTF-8 bytes), [list] and [dict] with [str] keys. *)
#[warnings="-register-all"] Inductive pyval : Type :=
| PyNone
| PyBool (b : bool)
| PyInt (n : Z)
| PyFloat (m e : Z)
| PyStr (s : string)
| PyList (l : list pyval)
| PyDict (d : gmap string pyval).

(** Exceptions deriving from [requests.exceptions.RequestException]:
    the failures of the transport itself, and [HTTPError], which
    [Response.raise_for_status] raises. *)
Inductive RequestException : Type :=
| ConnectionError (detail : string)
| ReadTimeout
| TooManyRedirects
| HTTPError (status : Z).

(** All exceptions that can travel through the crawler's methods:
    those of the requests, [JSONDecodeError] from [Response.json], and
    [KeyError] / [TypeError] from subscripting the decoded document. *)
Inductive exn : Type :=
| RequestExn (e : RequestException)
| JSONDecodeError
| KeyError (key : string)
| TypeError.

(** Result of running a piece of Python code: a value or a raised
    exception. *)
Inductive outcome (A : Type) : Type :=
| Returned (a : A)
| Raised (e : exn).
Arguments Returned {A} a.
Arguments Raised {A} e.

(** [v[key]] for a [str] key: a [dict] is looked up ([KeyError] when the
    key is missing); subscripting any other JSON value with a [str]
    raises [TypeError]. *)
Definition getitem (v : pyval) (key : string) : outcome pyval :=
  match v with
  | PyDict d =>
      match d !! key with
      | Some x => Returned x
      | None => Raised (KeyError key)
      end
  | _ => Raised TypeError
  end.

(* ===================================================================== *)
(** * The [requests] layer *)
(* ===================================================================== *)

Inductive Method : Type := GET | POST.

#[global] Instance Method_eq_dec : EqDecision Method.
Proof. solve_decision. Defined.

(** A header mapping and a cookie jar.  Header values are [str] or
    [None] (the crawler passes [self.token], which may be [None]).  The
    jar is read the way the crawler reads it, [self.cookies.get(name)]:
    as a mapping from cookie name to value. *)
Abbreviation Headers := (gmap string (option string)).
Abbreviation CookieJar := (gmap string string).

(** A [str] request body, kept as the library call that produced it. *)
Inductive Body : Type :=
| urlencode (query : list (string * string))   (* urllib.parse.urlencode *)
| json_dumps (obj : pyval).                    (* json.dumps *)

(** What [Session.request] is called with, together with the cookies of
    the session's jar, which the session attaches to the request. *)
Record Request : Type := {
  method : Method;
  url : string;
  headers : Headers;
  data : option Body;
  json : option pyval;
  allow_redirects : option bool;
  cookies_sent : CookieJar
}.

(** A response: its status code and the document its body decodes to
    ([None] when the body is not JSON). *)
Record Response : Type := {
  status_code : Z;
  json_body : option pyval
}.

(** One request/response exchange: the request, what came back (a
    transport failure or a response) and the session's cookie jar after
    the exchange. *)
Record Exchange : Type := {
  sent : Request;
  answer : RequestException + Response;
  jar : CookieJar
}.

(** The network and the remote server, as seen through
    [requests.Session]: given the exchanges so far and a request, the new
    contents of the cookie jar and either a transport failure or the
    final response. *)
Definition Transport : Type :=
  list Exchange -> Request -> CookieJar * (RequestException + Response).

(** [Response.raise_for_status]: raises [HTTPError] for a 4xx or 5xx
    status code and returns otherwise. *)
Definition raise_for_status (r : Response) : outcome unit :=
  if (400 <=? status_code r) && (status_code r <? 600)
  then Raised (RequestExn (HTTPError (status_code r)))
  else Returned tt.

(** [Response.json]. *)
Definition response_json (r : Response) : outcome pyval :=
  match json_body r with
  | Some v => Returned v
  | None => Raised JSONDecodeError
  end.

(* ===================================================================== *)
(** * The crawler instance and the monad *)
(* ===================================================================== *)

Inductive Level : Type := DEBUG | ERROR.

(** What an f-string of the crawler interpolates. *)
Inductive LogArg : Type :=
| ArgExn (e : RequestException)
| ArgToken (t : option string).

(** A record handed to [self.logger]: level, the literal part of the
    message and the interpolated value. *)
Record LogRecord : Type := {
  levelname : Level;
  prefix : string;
  arg : LogArg
}.

(** The attributes of a [CoupangPartnersCrawler]; [logger] holds the
    records emitted so far, oldest first (the logger's level is [DEBUG],
    so every record is emitted). *)
Record Crawler : Type := {
  username : string;
  password : string;
  token : option string;
  user_agent : string;
  cookies : CookieJar;
  logger : list LogRecord
}.

(** The instance together with the exchanges it has performed, oldest
    first. *)
Record Sys : Type := {
  self : Crawler;
  wire : list Exchange
}.

Definition M (A : Type) : Type := Sys -> Sys * outcome A.

Definition ret {A} (a : A) : M A := fun s => (s, Returned a).

Definition raise {A} (e : exn) : M A := fun s => (s, Raised e).

Definition bind {A B} (m : M A) (k : A -> M B) : M B :=
  fun s =>
    match m s with
    | (s', Returned a) => k a s'
    | (s', Raised e) => (s', Raised e)
    end.

Declare Scope py_scope.
Delimit Scope py_scope with py.
Notation "x <- m ;; k" := (bind m (fun x => k))
  (at level 100, m at next level, k at level 200, right associativity) : py_scope.
Notation "m ;; k" := (bind m (fun _ => k))
  (at level 100, k at level 200, right associativity) : py_scope.
Open Scope py_scope.

(** [try: body / except requests.exceptions.RequestException as e:
    handler e]: other exceptions pass through. *)
Definition try_except {A} (body : M A) (handler : RequestException -> M A) : M A :=
  fun s =>
    match body s with
    | (s', Raised (RequestExn e)) => handler e s'
    | r => r
    end.

Definition lift {A} (o : outcome A) : M A := fun s => (s, o).

Definition get_self : M Crawler := fun s => (s, Returned (self s)).

Definition emit (r : LogRecord) : M unit :=
  fun s =>
    let c := self s in
    ({| self := {| username := username c; password := password c;
                   token := token c; user_agent := user_agent c;
                   cookies := cookies c; logger := logger c ++ [r] |};
        wire := wire s |}, Returned tt).

Definition logger_error (prefix : string) (e : RequestException) : M unit :=
  emit {| levelname := ERROR; prefix := prefix; arg := ArgExn e |}.

Definition logger_debug (prefix : string) (t : option string) : M unit :=
  emit {| levelname := DEBUG; prefix := prefix; arg := ArgToken t |}.

(** [self.token = t]. *)
Definition set_token (t : option string) : M unit :=
  fun s =>
    let c := self s in
    ({| self := {| username := username c; password := password c;
                   token := t; user_agent := user_agent c;
                   cookies := cookies c; logger := logger c |};
        wire := wire s |}, Returned tt).

(** Python's [x or y] for an optional dict: [None] and the empty dict
    are falsy. *)
Definition or_dict (x : option Headers) (y : Headers) : Headers :=
  match x with
  | Some h => if decide (h = ∅) then y else h
  | None => y
  end.

(** Python's [x or y] for an optional string: [None] and the empty
    string are falsy. *)
Definition or_str (x : option string) (y : string) : string :=
  match x with
  | Some s => if decide (s = "") then y else s
  | None => y
  end.

(* ===================================================================== *)
(** * [crawler.py] *)
(* ===================================================================== *)

Definition LOGIN_URL : string := "https://login.coupang.com/login/login.pang".
Definition LOGIN_PROCESS_URL : string := "https://login.coupang.com/login/loginProcess.pang".
Definition POSTLOGIN_URL : string := "https://partners.coupang.com/api/v1/postlogin".
Definition SEARCH_URL : string := "https://partners.coupang.com/api/v1/search".
Definition BANNER_URL : string := "https://partners.coupang.com/api/v1/banner/iframe/url".

Definition DEFAULT_USER_AGENT : string :=
  "Mozilla/5.0 (Linux; Android 13; Redmi Note 10 Pro) AppleWebKit/537.36 (KHTML, like Gecko) Chrome/101.0.0.0 Mobile Safari/537.36".

(** [CoupangPartnersCrawler.__init__]. *)
Definition __init__ (username password : string) (user_agent : option string) : Crawler :=
  {| username := username;
     password := password;
     token := None;
     user_agent := or_str user_agent DEFAULT_USER_AGENT;
     cookies := ∅;
     logger := [] |}.

(** The local [default_headers] of [__get_headers]. *)
Definition default_headers (c : Crawler) : Headers :=
  {[ "User-Agent" := Some (user_agent c);
     "accept-language" := Some "ko,ko-KR;q=0.9,en;q=0.8,en-US;q=0.7" ]}.

(** [__get_headers]: [{**default_headers, **(headers or {})}]; in a dict
    display the later entry wins, and [∪] on maps prefers its left
    operand. *)
Definition __get_headers (c : Crawler) (headers : option Headers) : Headers :=
  or_dict headers ∅ ∪ default_headers c.

Section WithTransport.

Variable srv : Transport.

(** [Session.request]: the request goes out with the jar's cookies,
    the jar takes the cookies the exchange leaves, and a transport
    failure is raised. *)
Definition Session_request (m : Method) (u : string) (h : Headers)
    (d : option Body) (j : option pyval) (redirects : option bool) : M Response :=
  fun s =>
    let c := self s in
    let req := {| method := m; url := u; headers := h; data := d; json := j;
                  allow_redirects := redirects; cookies_sent := cookies c |} in
    let '(jar', ans) := srv (wire s) req in
    ({| self := {| username := username c; password := password c;
                   token := token c; user_agent := user_agent c;
                   cookies := jar'; logger := logger c |};
        wire := wire s ++ [{| sent := req; answer := ans; jar := jar' |}] |},
     match ans with
     | inl e => Raised (RequestExn e)
     | inr r => Returned r
     end).

(** [Session.get] follows redirects unless told otherwise. *)
Definition Session_get (u : string) (h : Headers) : M Response :=
  Session_request GET u h None None (Some true).

(** [Session.post] hands [allow_redirects] on as given. *)
Definition Session_post (u : string) (h : Headers) (d : option Body)
    (j : option pyval) (redirects : option bool) : M Response :=
  Session_request POST u h d j redirects.

(** [__get_token]: [self.cookies.get('AFATK')]. *)
Definition __get_token : M (option string) :=
  c <- get_self ;;
  ret (cookies c !! "AFATK").

(** [__get]. *)
Definition __get (u : string) (h : option Headers) : M Response :=
  try_except
    (c <- get_self ;;
     response <- Session_get u (or_dict h (__get_headers c None)) ;;
     lift (raise_for_status response) ;;
     ret response)
    (fun e =>
       logger_error "GET request failed: " e ;;
       raise (RequestExn e)).

(** [__post]. *)
Definition __post (u : string) (h : option Headers) (d : option Body)
    (j : option pyval) (redirects : option bool) : M Response :=
  try_except
    (c <- get_self ;;
     response <- Session_post u (or_dict h (__get_headers c None)) d j redirects ;;
     lift (raise_for_status response) ;;
     ret response)
    (fun e =>
       logger_error "POST request failed: " e ;;
       raise (RequestExn e)).

(** [login]. *)
Definition login : M bool :=
  __get LOGIN_URL None ;;
  c <- get_self ;;
  let headers := __get_headers c
    (Some {[ "Content-Type" := Some "application/x-www-form-urlencoded; charset=UTF-8" ]}) in
  let data := urlencode [("email", username c); ("password", password c)] in
  __post LOGIN_PROCESS_URL (Some headers) (Some data) None (Some true) ;;
  __get POSTLOGIN_URL None ;;
  t <- __get_token ;;
  set_token t ;;
  c <- get_self ;;
  logger_debug "Token: " (token c) ;;
  c <- get_self ;;
  ret (bool_decide (token c ≠ None)).

(** [search_keyword]. *)
Definition search_keyword (keyword : string) : M pyval :=
  c <- get_self ;;
  let headers := __get_headers c
    (Some {[ "Content-Type" := Some "application/json;charset=UTF-8";
             "X-Token" := token c ]}) in
  let data := json_dumps
    (PyDict {[ "filter" := PyStr keyword;
               "page" := PyDict {[ "pageNumber" := PyInt 0; "size" := PyInt 36 ]} ]}) in
  response <- __post SEARCH_URL (Some headers) (Some data) None None ;;
  body <- lift (response_json response) ;;
  d <- lift (getitem body "data") ;;
  products <- lift (getitem d "products") ;;
  ret products.

(** [get_link]. *)
Definition get_link (product : pyval) : M pyval :=
  c <- get_self ;;
  let headers := __get_headers c
    (Some {[ "content-type" := Some "application/json;charset=UTF-8";
             "X-Token" := token c ]}) in
  let json_data := PyDict {[ "product" := product ]} in
  response <- __post BANNER_URL (Some headers) None (Some json_data) None ;;
  body <- lift (response_json response) ;;
  d <- lift (getitem body "data") ;;
  lift (getitem d "shortUrl").

End WithTransport.

(* ===================================================================== *)
(** * Vocabulary of the properties *)
(* ===================================================================== *)

(** An exchange fails when the transport raised, or when the response
    makes [raise_for_status] raise. *)
Definition failed (x : Exchange) : option RequestException :=
  match answer x with
  | inl e => Some e
  | inr r =>
      match raise_for_status r with
      | Raised (RequestExn e) => Some e
      | _ => None
      end
  end.


(** The exchanges performed, and the records logged, between two states
    of the same run. *)
Definition new_exchanges (s s' : Sys) : list Exchange :=
  drop (length (wire s)) (wire s').

Definition new_records (s s' : Sys) : list LogRecord :=
  drop (length (logger (self s))) (logger (self s')).

Definition endpoint (x : Exchange) : Method * string :=
  (method (sent x), url (sent x)).

(** The three public operations, with one result type. *)
Inductive Operation : Type :=
| Login
| SearchKeyword (keyword : string)
| GetLink (product : pyval).

Definition run (srv : Transport) (op : Operation) : M pyval :=
  match op with
  | Login => b <- login srv ;; ret (PyBool b)
  | SearchKeyword k => search_keyword srv k
  | GetLink p => get_link srv p
  end.

(** The requests an operation issues when nothing fails, in order. *)
Definition plan (op : Operation) : list (Method * string) :=
  match op with
  | Login => [(GET, LOGIN_URL); (POST, LOGIN_PROCESS_URL); (GET, POSTLOGIN_URL)]
  | SearchKeyword _ => [(POST, SEARCH_URL)]
  | GetLink _ => [(POST, BANNER_URL)]
  end.

(** A server whose answer does not depend on earlier exchanges. *)
Definition history_blind (srv : Transport) : Prop :=
  forall h h' req, srv h req = srv h' req.

(** A server whose answer does not depend on the cookies it is sent. *)
Definition cookie_blind (srv : Transport) : Prop :=
  forall h req c,
    snd (srv h req) =
    snd (srv h {| method := method req; url := url req; headers := headers req;
                  data := data req; json := json req;
                  allow_redirects := allow_redirects req; cookies_sent := c |}).

Definition is_mapping (v : pyval) : bool :=
  match v with PyDict _ => true | _ => false end.


(** ** Symbolic execution of one request *)

(** The exchange that issuing a request in state [s] produces. *)
Definition exchange (srv : Transport) (s : Sys) (m : Method) (u : string)
    (h : Headers) (d : option Body) (j : option pyval) (redirects : option bool)
    : Exchange :=
  let req := {| method := m; url := u; headers := h; data := d; json := j;
                allow_redirects := redirects; cookies_sent := cookies (self s) |} in
  {| sent := req; answer := snd (srv (wire s) req); jar := fst (srv (wire s) req) |}.

(** The state after exchange [x] has taken place. *)
Definition received (s : Sys) (x : Exchange) : Sys :=
  let c := self s in
  {| self := {| username := username c; password := password c;
                token := token c; user_agent := user_agent c;
                cookies := jar x; logger := logger c |};
     wire := wire s ++ [x] |}.

(** The state after a record has been logged. *)
Definition noted (s : Sys) (r : LogRecord) : Sys :=
  let c := self s in
  {| self := {| username := username c; password := password c;
                token := token c; user_agent := user_agent c;
                cookies := cookies c; logger := logger c ++ [r] |};
     wire := wire s |}.

(** The state after the token has been assigned. *)
Definition with_token (s : Sys) (t : option string) : Sys :=
  let c := self s in
  {| self := {| username := username c; password := password c;
                token := t; user_agent := user_agent c;
                cookies := cookies c; logger := logger c |};
     wire := wire s |}.

Definition error_record (p : string) (e : RequestException) : LogRecord :=
  {| levelname := ERROR; prefix := p; arg := ArgExn e |}.

Definition debug_record (p : string) (t : option string) : LogRecord :=
  {| levelname := DEBUG; prefix := p; arg := ArgToken t |}.

(** What [__get] / [__post] do once the exchange [x] is known; [p] is
    the literal part of the error message. *)
Definition settle (p : string) (s : Sys) (x : Exchange) : Sys * outcome Response :=
  match failed x with
  | Some e => (noted (received s x) (error_record p e), Raised (RequestExn e))
  | None =>
      (received s x,
       match answer x with
       | inr r => Returned r
       | inl e => Raised (RequestExn e)
       end)
  end.

(** The headers and bodies the three operations send. *)
Definition login_headers (c : Crawler) : Headers :=
  __get_headers c
    (Some {[ "Content-Type" := Some "application/x-www-form-urlencoded; charset=UTF-8" ]}).

Definition login_form (c : Crawler) : Body :=
  urlencode [("email", username c); ("password", password c)].

Definition search_headers (c : Crawler) : Headers :=
  __get_headers c
    (Some {[ "Content-Type" := Some "application/json;charset=UTF-8";
             "X-Token" := token c ]}).

Definition search_body (keyword : string) : Body :=
  json_dumps
    (PyDict {[ "filter" := PyStr keyword;
               "page" := PyDict {[ "pageNumber" := PyInt 0; "size" := PyInt 36 ]} ]}).

Definition link_headers (c : Crawler) : Headers :=
  __get_headers c
    (Some {[ "content-type" := Some "application/json;charset=UTF-8";
             "X-Token" := token c ]}).

(** [response.json()['data'][field]]. *)
Definition data_field (field : string) (r : Response) : outcome pyval :=
  match response_json r with
  | Returned body =>
      match getitem body "data" with
      | Returned d => getitem d field
      | Raised e => Raised e
      end
  | Raised e => Raised e
  end.

(** ** The exchanges of each operation *)

Section Exchanges.

Variable srv : Transport.

(** The three exchanges of [login], each issued in the state the
    previous one left. *)
Definition login_x1 (s : Sys) : Exchange :=
  exchange srv s GET LOGIN_URL (default_headers (self s)) None None (Some true).

Definition login_x2 (s : Sys) : Exchange :=
  exchange srv (received s (login_x1 s)) POST LOGIN_PROCESS_URL
    (login_headers (self s)) (Some (login_form (self s))) None (Some true).

Definition login_x3 (s : Sys) : Exchange :=
  exchange srv (received (received s (login_x1 s)) (login_x2 s)) GET POSTLOGIN_URL
    (default_headers (self s)) None None (Some true).

Definition search_x (k : string) (s : Sys) : Exchange :=
  exchange srv s POST SEARCH_URL (search_headers (self s)) (Some (search_body k)) None None.

Definition link_x (p : pyval) (s : Sys) : Exchange :=
  exchange srv s POST BANNER_URL (link_headers (self s)) None
    (Some (PyDict {[ "product" := p ]})) None.

(** A single-request operation: the request is settled, then the
    field of the response document is read without further effects. *)
Definition read_field (p field : string) (s : Sys) (x : Exchange) : Sys * outcome pyval :=
  match failed x with
  | Some e => (noted (received s x) (error_record p e), Raised (RequestExn e))
  | None =>
      (received s x,
       match answer x with
       | inr r => data_field field r
       | inl e => Raised (RequestExn e)
       end)
  end.

End Exchanges.

(** Which run of [login] it was, according to where it stopped. *)
Inductive login_run (srv : Transport) (s : Sys) : Sys -> outcome bool -> Prop :=
| login_stops_1 e :
    failed (login_x1 srv s) = Some e ->
    login_run srv s
      (noted (received s (login_x1 srv s)) (error_record "GET request failed: " e))
      (Raised (RequestExn e))
| login_stops_2 e :
    failed (login_x1 srv s) = None ->
    failed (login_x2 srv s) = Some e ->
    login_run srv s
      (noted (received (received s (login_x1 srv s)) (login_x2 srv s))
             (error_record "POST request failed: " e))
      (Raised (RequestExn e))
| login_stops_3 e :
    failed (login_x1 srv s) = None ->
    failed (login_x2 srv s) = None ->
    failed (login_x3 srv s) = Some e ->
    login_run srv s
      (noted (received (received (received s (login_x1 srv s)) (login_x2 srv s))
                (login_x3 srv s))
             (error_record "GET request failed: " e))
      (Raised (RequestExn e))
| login_completes :
    failed (login_x1 srv s) = None ->
    failed (login_x2 srv s) = None ->
    failed (login_x3 srv s) = None ->
    login_run srv s
      (noted (with_token
                (received (received (received s (login_x1 srv s)) (login_x2 srv s))
                   (login_x3 srv s))
                (jar (login_x3 srv s) !! "AFATK"))
             (debug_record "Token: " (jar (login_x3 srv s) !! "AFATK")))
      (Returned (bool_decide (jar (login_x3 srv s) !! "AFATK" ≠ None))).


(** ** Servers used in the examples *)

Definition ok (body : option pyval) : RequestException + Response :=
  inr {| status_code := 200; json_body := body |}.

(** Accepts the credentials [u]/[p]: the login form sets the cookie
    [AFATK=abc123]; a search carrying that token finds one product, any
    other search is refused with 401. *)
Definition mock_server : Transport :=
  fun _ req =>
    if decide (url req = LOGIN_PROCESS_URL) then
      match data req with
      | Some (urlencode q) =>
          if decide (q = [("email", "u"); ("password", "p")])
          then (<["AFATK" := "abc123"]> (cookies_sent req), ok None)
          else (cookies_sent req, ok None)
      | _ => (cookies_sent req, ok None)
      end
    else if decide (url req = SEARCH_URL) then
      if decide (headers req !! "X-Token" = Some (Some "abc123"))
      then (cookies_sent req,
            ok (Some (PyDict {[ "data" := PyDict {[ "products" :=
                  PyList [PyDict {[ "productId" := PyInt 7 ]}] ]} ]})))
      else (cookies_sent req, inr {| status_code := 401; json_body := None |})
    else if decide (url req = BANNER_URL) then
      (cookies_sent req,
       ok (Some (PyDict {[ "data" := PyDict {[ "shortUrl" := PyStr "https://link.coupang.com/a/x" ]} ]})))
    else (cookies_sent req, ok None).

Definition fresh (u p : string) : Sys :=
  {| self := __init__ u p None; wire := [] |}.

(** Answers every request with [304 Not Modified] and no body. *)
Definition not_modified : Transport :=
  fun _ req => (cookies_sent req, inr {| status_code := 304; json_body := None |}).

(** Answers every request with [200] and the JSON document [doc]. *)
Definition serving (doc : pyval) : Transport :=
  fun _ req => (cookies_sent req, ok (Some doc)).

(** A search result of [n] products. *)
Definition products_doc (n : nat) : pyval :=
  PyDict {[ "data" := PyDict {[ "products" := PyList (replicate n (PyDict ∅)) ]} ]}.

(** Serves two products to a session without the cookie [seen] and sets
    that cookie; serves no product to a session that carries it. *)
Definition seen_server : Transport :=
  fun _ req =>
    match cookies_sent req !! "seen" with
    | Some _ => (cookies_sent req, ok (Some (products_doc 0)))
    | None => (<["seen" := "1"]> (cookies_sent req), ok (Some (products_doc 2)))
    end.

(** The network is down after the first request. *)
Definition drops_after_first : Transport :=
  fun h req =>
    match h with
    | [] => (cookies_sent req, ok None)
    | _ => (cookies_sent req, inl (ConnectionError "connection reset"))
    end.

(** A client that already holds a token. *)
Definition logged_in (t : string) : Sys :=
  {| self := {| username := "u"; password := "p"; token := Some t;
                user_agent := DEFAULT_USER_AGENT; cookies := {[ "AFATK" := t ]};
                logger := [] |};
     wire := [] |}.

(** ** The private request methods, by HTTP method *)

(** [__get] and [__post] side by side: [__get] takes no body and leaves
    redirect handling to [Session.get]. *)
Definition private_request (srv : Transport) (m : Method) (u : string)
    (h : option Headers) (d : option Body) (j : option pyval)
    (redirects : option bool) : M Response :=
  match m with
  | GET => __get srv u h
  | POST => __post srv u h d j redirects
  end.

(** The literal part of the message each of the two methods logs. *)
Definition failure_prefix (m : Method) : string :=
  match m with
  | GET => "GET request failed: "
  | POST => "POST request failed: "
  end.

(** The field of [response.json()['data']] an operation returns
    ([login] reads no response). *)
Definition result_field (op : Operation) : option string :=
  match op with
  | Login => None
  | SearchKeyword _ => Some "products"
  | GetLink _ => Some "shortUrl"
  end.

(** ** The script under [if __name__ == "__main__"] *)

(** What can end the script besides an exception of the crawler:
    [Exception(msg)] raised on a refused login, and [IndexError] /
    [KeyError(0)] from [products[0]]. *)
Inductive script_exn : Type :=
| Uncaught (e : exn)
| Exception (msg : string)
| IndexError
| KeyError_int (key : Z).

(** The script ends normally, having obtained [short_url], or with an
    uncaught exception. *)
Inductive script_result : Type :=
| Finished (short_url : pyval)
| Crashed (e : script_exn).

(** [for product in products]: lists, dicts and strings can be iterated;
    iterating anything else raises [TypeError]. *)
Definition iterable (v : pyval) : bool :=
  match v with
  | PyList _ | PyDict _ | PyStr _ => true
  | _ => false
  end.

(** Number of bytes of the UTF-8 character that starts with byte [a]. *)
Definition utf8_width (a : Ascii.ascii) : nat :=
  let n := Ascii.nat_of_ascii a in
  if (n <? 128)%nat then 1%nat
  else if (n <? 224)%nat then 2%nat
  else if (n <? 240)%nat then 3%nat
  else 4%nat.

(** [products[0]]: the first element of a list, the first character of a
    string ([IndexError] when empty); a dict decoded from JSON has only
    [str] keys, so [0] is a missing key; other values cannot be
    subscripted. *)
Definition first_item (products : pyval) : script_exn + pyval :=
  match products with
  | PyList [] => inl IndexError
  | PyList (p :: _) => inr p
  | PyStr EmptyString => inl IndexError
  | PyStr (String a rest) => inr (PyStr (String.substring 0 (utf8_width a) (String a rest)))
  | PyDict _ => inl (KeyError_int 0)
  | _ => inl (Uncaught TypeError)
  end.

(** The script, run with [USERNAME] and [PASSWORD] set in the
    environment.  What it prints is not part of the state: printing reads
    nothing back and cannot change what the crawler does. *)
Definition main (srv : Transport) (username password : string) : Sys * script_result :=
  let crawler := {| self := __init__ username password None; wire := [] |} in
  match login srv crawler with
  | (s1, Raised e) => (s1, Crashed (Uncaught e))
  | (s1, Returned false) =>
      (s1, Crashed (Exception "Login failed. Please check your username and password."))
  | (s1, Returned true) =>
      match search_keyword srv "신발" s1 with
      | (s2, Raised e) => (s2, Crashed (Uncaught e))
      | (s2, Returned products) =>
          if iterable products then
            match first_item products with
            | inl e => (s2, Crashed e)
            | inr product =>
                match get_link srv product s2 with
                | (s3, Raised e) => (s3, Crashed (Uncaught e))
                | (s3, Returned short_url) => (s3, Finished short_url)
                end
            end
          else (s2, Crashed (Uncaught TypeError))
      end
  end.

(** The five endpoints of the script, in the order it contacts them. *)
Definition script_plan : list (Method * string) :=
  [(GET, LOGIN_URL); (POST, LOGIN_PROCESS_URL); (GET, POSTLOGIN_URL);
   (POST, SEARCH_URL); (POST, BANNER_URL)].


(** Accepts any login and sets [AFATK=abc123], then serves [doc] to
    every search and link request. *)
Definition shop (doc : pyval) : Transport :=
  fun _ req =>
    if decide (url req = LOGIN_PROCESS_URL)
    then (<["AFATK" := "abc123"]> (cookies_sent req), ok None)
    else if decide (method req = GET)
    then (cookies_sent req, ok None)
    else (cookies_sent req, ok (Some doc)).

(** A document with both [data.products] (one product) and
    [data.shortUrl]. *)
Definition catalogue : pyval :=
  PyDict {[ "data" := PyDict {[ "products" := PyList [PyDict {[ "productId" := PyInt 7 ]}];
                                "shortUrl" := PyStr "https://link.coupang.com/a/x" ]} ]}.

(** Answers every request with status [code] and the document [doc]. *)
Definition answering (code : Z) (doc : option pyval) : Transport :=
  fun _ req => (cookies_sent req, inr {| status_code := code; json_body := doc |}).

(* ===================================================================== *)
(** * Examples *)
(* ===================================================================== *)

Example login_good :
  let out := login mock_server (fresh "u" "p") in
  snd out = Returned true /\ token (self (fst out)) = Some "abc123" /\
  map endpoint (wire (fst out)) =
    [(GET, LOGIN_URL); (POST, LOGIN_PROCESS_URL); (GET, POSTLOGIN_URL)].
Proof. cbv zeta. split; [| split]; reflexivity. Qed.

Example login_bad :
  let out := login mock_server (fresh "u" "wrong") in
  snd out = Returned false /\ token (self (fst out)) = None.
Proof. cbv zeta. split; reflexivity. Qed.

Example search_after_login :
  let s := fst (login mock_server (fresh "u" "p")) in
  let out := search_keyword mock_server "shoes" s in
  snd out = Returned (PyList [PyDict {[ "productId" := PyInt 7 ]}]) /\
  new_exchanges s (fst out) = [search_x mock_server "shoes" s] /\
  headers (sent (search_x mock_server "shoes" s)) !! "X-Token" = Some (Some "abc123").
Proof. cbv zeta. split; [| split]; reflexivity. Qed.

Example search_before_login :
  snd (search_keyword mock_server "shoes" (fresh "u" "p")) =
  Raised (RequestExn (HTTPError 401)).
Proof. reflexivity. Qed.

(* ===================================================================== *)
(** * Symbolic execution lemmas *)
(* ===================================================================== *)

Lemma get_headers_nonempty c h : __get_headers c h ≠ ∅.
Proof.
  intros E.
  assert (L : __get_headers c h !! "User-Agent" = None) by (rewrite E; apply lookup_empty).
  unfold __get_headers in L. apply lookup_union_None in L as [_ L].
  unfold default_headers in L. rewrite lookup_insert_eq in L. discriminate.
Qed.

Lemma or_dict_truthy h y : h ≠ ∅ -> or_dict (Some h) y = h.
Proof. intros N. unfold or_dict. destruct (decide (h = ∅)); [contradiction | reflexivity]. Qed.

Lemma get_headers_default c : __get_headers c None = default_headers c.
Proof. unfold __get_headers, or_dict. apply (left_id ∅ (∪)). Qed.

Lemma failed_inl x e : answer x = inl e -> failed x = Some e.
Proof. unfold failed. intros ->. reflexivity. Qed.

Lemma failed_inr x r :
  answer x = inr r ->
  failed x = if (400 <=? status_code r) && (status_code r <? 600)
             then Some (HTTPError (status_code r)) else None.
Proof.
  unfold failed, raise_for_status. intros ->.
  destruct ((400 <=? status_code r) && (status_code r <? 600)); reflexivity.
Qed.

Section Execution.

Variable srv : Transport.

Lemma post_eq u h d j r s :
  h ≠ ∅ ->
  __post srv u (Some h) d j r s =
  settle "POST request failed: " s (exchange srv s POST u h d j r).
Proof.
  intros N.
  unfold __post, try_except, bind, get_self, Session_post, Session_request,
    lift, ret, logger_error, emit, raise, settle, exchange, received, noted,
    error_record.
  rewrite (or_dict_truthy _ _ N). cbn [self wire sent answer jar].
  destruct (srv _ _) as [j' [e | resp]] eqn:E; cbn [fst snd].
  - reflexivity.
  - unfold failed; cbn [answer]. unfold raise_for_status.
    destruct ((400 <=? status_code resp) && (status_code resp <? 600)); reflexivity.
Qed.

Lemma get_eq u s :
  __get srv u None s =
  settle "GET request failed: " s
    (exchange srv s GET u (default_headers (self s)) None None (Some true)).
Proof.
  unfold __get, try_except, bind, get_self, Session_get, Session_request,
    lift, ret, logger_error, emit, raise, settle, exchange, received, noted,
    error_record.
  cbn [or_dict]. rewrite get_headers_default. cbn [self wire sent answer jar].
  destruct (srv _ _) as [j' [e | resp]] eqn:E; cbn [fst snd].
  - reflexivity.
  - unfold failed; cbn [answer]. unfold raise_for_status.
    destruct ((400 <=? status_code resp) && (status_code resp <? 600)); reflexivity.
Qed.

End Execution.

Lemma failed_None x : failed x = None -> exists r, answer x = inr r.
Proof.
  unfold failed. destruct (answer x) as [e | r]; [discriminate | eauto].
Qed.

Lemma settle_failed p s x e :
  failed x = Some e ->
  settle p s x = (noted (received s x) (error_record p e), Raised (RequestExn e)).
Proof. unfold settle. intros ->. reflexivity. Qed.

Lemma settle_passed p s x :
  failed x = None ->
  exists r, answer x = inr r /\ settle p s x = (received s x, Returned r).
Proof.
  intros F. destruct (failed_None x F) as [r A]. exists r. split; [exact A |].
  unfold settle. rewrite F, A. reflexivity.
Qed.

Section Operations.

Variable srv : Transport.


Lemma login_eq s :
  login srv s =
  match failed (login_x1 srv s) with
  | Some e =>
      (noted (received s (login_x1 srv s)) (error_record "GET request failed: " e),
       Raised (RequestExn e))
  | None =>
      let s1 := received s (login_x1 srv s) in
      match failed (login_x2 srv s) with
      | Some e =>
          (noted (received s1 (login_x2 srv s)) (error_record "POST request failed: " e),
           Raised (RequestExn e))
      | None =>
          let s2 := received s1 (login_x2 srv s) in
          match failed (login_x3 srv s) with
          | Some e =>
              (noted (received s2 (login_x3 srv s)) (error_record "GET request failed: " e),
               Raised (RequestExn e))
          | None =>
              let t := jar (login_x3 srv s) !! "AFATK" in
              (noted (with_token (received s2 (login_x3 srv s)) t) (debug_record "Token: " t),
               Returned (bool_decide (t ≠ None)))
          end
      end
  end.
Proof.
  unfold login. unfold bind at 1. rewrite get_eq. fold (login_x1 srv s).
  destruct (failed (login_x1 srv s)) as [e1 |] eqn:F1.
  { rewrite (settle_failed _ _ _ _ F1). reflexivity. }
  destruct (settle_passed "GET request failed: " s _ F1) as (r1 & _ & ->).
  unfold bind at 1, get_self at 1. unfold bind at 1.
  rewrite post_eq by apply get_headers_nonempty.
  change (exchange srv _ POST _ _ _ _ _) with (login_x2 srv s).
  destruct (failed (login_x2 srv s)) as [e2 |] eqn:F2.
  { rewrite (settle_failed _ _ _ _ F2). reflexivity. }
  destruct (settle_passed "POST request failed: " (received s (login_x1 srv s)) _ F2)
    as (r2 & _ & ->).
  unfold bind at 1. rewrite get_eq.
  change (exchange srv _ GET POSTLOGIN_URL _ _ _ _) with (login_x3 srv s).
  destruct (failed (login_x3 srv s)) as [e3 |] eqn:F3.
  { rewrite (settle_failed _ _ _ _ F3). reflexivity. }
  destruct (settle_passed "GET request failed: "
              (received (received s (login_x1 srv s)) (login_x2 srv s)) _ F3) as (r3 & _ & ->).
  reflexivity.
Qed.


Lemma search_keyword_eq k s :
  search_keyword srv k s = read_field "POST request failed: " "products" s (search_x srv k s).
Proof.
  unfold search_keyword. unfold bind at 1, get_self at 1. unfold bind at 1.
  rewrite post_eq by apply get_headers_nonempty.
  change (exchange srv _ POST _ _ _ _ _) with (search_x srv k s).
  unfold read_field.
  destruct (failed (search_x srv k s)) as [e |] eqn:F.
  { rewrite (settle_failed _ _ _ _ F). reflexivity. }
  destruct (settle_passed "POST request failed: " s _ F) as (r & A & ->).
  rewrite A. unfold bind, lift, ret, data_field.
  destruct (response_json r) as [body | e]; [| reflexivity].
  destruct (getitem body "data") as [d | e]; [| reflexivity].
  destruct (getitem d "products"); reflexivity.
Qed.

Lemma get_link_eq p s :
  get_link srv p s = read_field "POST request failed: " "shortUrl" s (link_x srv p s).
Proof.
  unfold get_link. unfold bind at 1, get_self at 1. unfold bind at 1.
  rewrite post_eq by apply get_headers_nonempty.
  change (exchange srv _ POST _ _ _ _ _) with (link_x srv p s).
  unfold read_field.
  destruct (failed (link_x srv p s)) as [e |] eqn:F.
  { rewrite (settle_failed _ _ _ _ F). reflexivity. }
  destruct (settle_passed "POST request failed: " s _ F) as (r & A & ->).
  rewrite A. unfold bind, lift, ret, data_field.
  destruct (response_json r) as [body | e]; [| reflexivity].
  destruct (getitem body "data") as [d | e]; reflexivity.
Qed.

End Operations.

(** ** Traces of a run *)

Lemma new_exchanges_1 s x : new_exchanges s (received s x) = [x].
Proof. unfold new_exchanges, received; cbn [wire]. apply drop_app_length. Qed.

Lemma new_exchanges_2 s x1 x2 :
  new_exchanges s (received (received s x1) x2) = [x1; x2].
Proof.
  unfold new_exchanges, received; cbn [wire].
  rewrite <- app_assoc. apply drop_app_length.
Qed.

Lemma new_exchanges_3 s x1 x2 x3 :
  new_exchanges s (received (received (received s x1) x2) x3) = [x1; x2; x3].
Proof.
  unfold new_exchanges, received; cbn [wire].
  rewrite <- !app_assoc. apply drop_app_length.
Qed.

Lemma new_exchanges_noted s s' r : new_exchanges s (noted s' r) = new_exchanges s s'.
Proof. reflexivity. Qed.

Lemma new_exchanges_with_token s s' t : new_exchanges s (with_token s' t) = new_exchanges s s'.
Proof. reflexivity. Qed.

Lemma new_records_received s s' x : new_records s (received s' x) = new_records s s'.
Proof. reflexivity. Qed.

Lemma new_records_with_token s s' t : new_records s (with_token s' t) = new_records s s'.
Proof. reflexivity. Qed.

Lemma new_records_same s : new_records s s = [].
Proof. unfold new_records. apply drop_all. Qed.

Lemma new_records_noted s s' r :
  logger (self s') = logger (self s) -> new_records s (noted s' r) = [r].
Proof.
  intros E. unfold new_records, noted; cbn [self logger].
  rewrite E. apply drop_app_length.
Qed.

Ltac trace :=
  rewrite ?new_exchanges_noted, ?new_exchanges_with_token,
    ?new_exchanges_1, ?new_exchanges_2, ?new_exchanges_3,
    ?new_records_received, ?new_records_with_token, ?new_records_same in *.


Lemma login_cases srv s s' r : login srv s = (s', r) -> login_run srv s s' r.
Proof.
  rewrite login_eq.
  destruct (failed (login_x1 srv s)) as [e1 |] eqn:F1.
  { intros [= <- <-]. by constructor. }
  destruct (failed (login_x2 srv s)) as [e2 |] eqn:F2.
  { intros [= <- <-]. by constructor. }
  destruct (failed (login_x3 srv s)) as [e3 |] eqn:F3.
  { intros [= <- <-]. by constructor. }
  intros [= <- <-]. by constructor.
Qed.


Lemma login_run_completed srv s s' r :
  login_run srv s s' r ->
  Forall (fun x => failed x = None) (new_exchanges s s') ->
  s' = noted (with_token
                (received (received (received s (login_x1 srv s)) (login_x2 srv s))
                   (login_x3 srv s))
                (jar (login_x3 srv s) !! "AFATK"))
             (debug_record "Token: " (jar (login_x3 srv s) !! "AFATK")) /\
  r = Returned (bool_decide (jar (login_x3 srv s) !! "AFATK" ≠ None)).
Proof.
  intros Hrun Hok.
  destruct Hrun as [e F1 | e F1 F2 | e F1 F2 F3 | F1 F2 F3]; trace.
  - apply Forall_cons in Hok as [C _]. congruence.
  - apply Forall_cons in Hok as [_ Hok]. apply Forall_cons in Hok as [C _]. congruence.
  - apply Forall_cons in Hok as [_ Hok]. apply Forall_cons in Hok as [_ Hok].
    apply Forall_cons in Hok as [C _]. congruence.
  - split; reflexivity.
Qed.


Lemma login_run_raised srv s s' e :
  login_run srv s s' (Raised e) ->
  exists x f, x ∈ new_exchanges s s' /\ last (new_exchanges s s') = Some x /\
    failed x = Some f /\ e = RequestExn f /\ token (self s') = token (self s) /\
    exists p, new_records s s' = [error_record p f].
Proof.
  intros R. inversion R as [f F1 | f F1 F2 | f F1 F2 F3 |]; subst; trace.
  - exists (login_x1 srv s), f. repeat split; [set_solver | done |].
    eexists. by apply new_records_noted.
  - exists (login_x2 srv s), f. repeat split; [set_solver | done |].
    eexists. by apply new_records_noted.
  - exists (login_x3 srv s), f. repeat split; [set_solver | done |].
    eexists. by apply new_records_noted.
Qed.


(** C10. If [login] raises, the stored token is the one the client had
    before the call: the token is assigned only after the third request
    has succeeded. *)
Theorem login_failure_keeps_token srv s s' e :
  login srv s = (s', Raised e) ->
  token (self s') = token (self s).
Proof.
  intros Hrun. apply login_cases in Hrun.
  by destruct (login_run_raised _ _ _ _ Hrun) as (x & f & _ & _ & _ & _ & Ht & _).
Qed.

(** ** Single-request operations *)

Lemma read_field_cases p f s x s' r :
  read_field p f s x = (s', r) ->
  (exists e, failed x = Some e /\ s' = noted (received s x) (error_record p e) /\
             r = Raised (RequestExn e)) \/
  (exists resp, failed x = None /\ answer x = inr resp /\ s' = received s x /\
                r = data_field f resp).
Proof.
  unfold read_field. destruct (failed x) as [e |] eqn:F.
  - intros [= <- <-]. left. eauto.
  - destruct (failed_None x F) as [resp A]. rewrite A.
    intros [= <- <-]. right. eauto.
Qed.

Lemma search_headers_token c : search_headers c !! "X-Token" = Some (token c).
Proof.
  unfold search_headers, __get_headers.
  rewrite or_dict_truthy by (apply insert_non_empty).
  apply lookup_union_Some_l. by simplify_map_eq.
Qed.

Lemma link_headers_token c : link_headers c !! "X-Token" = Some (token c).
Proof.
  unfold link_headers, __get_headers.
  rewrite or_dict_truthy by (apply insert_non_empty).
  apply lookup_union_Some_l. by simplify_map_eq.
Qed.

Lemma data_field_found field resp body d v :
  json_body resp = Some (PyDict body) ->
  body !! "data" = Some (PyDict d) ->
  d !! field = Some v ->
  data_field field resp = Returned v.
Proof.
  intros J B D. unfold data_field, response_json. rewrite J. cbn. rewrite B. cbn.
  by rewrite D.
Qed.



(** ** Failures, for all three operations *)










Example login_all_304 :
  let out := login not_modified (fresh "u" "p") in
  snd out = Returned false /\
  map failed (wire (fst out)) = [None; None; None] /\
  map levelname (logger (self (fst out))) = [DEBUG].
Proof. cbv zeta. split; [| split]; reflexivity. Qed.

(** ** Responses of unexpected shape *)

(** C6 (amended). When the request succeeds but reading
    [data.products] (in [search_keyword]) or [data.shortUrl] (in
    [get_link]) from the response fails, that error is raised to the
    caller and nothing is logged: only the request itself is inside the
    logging [try]. *)
Theorem shape_error_propagates_unlogged srv s :
  (forall k s' r,
     search_keyword srv k s = (s', r) ->
     exists x, new_exchanges s s' = [x] /\
       forall resp e,
         answer x = inr resp -> failed x = None ->
         data_field "products" resp = Raised e ->
         r = Raised e /\ logger (self s') = logger (self s)) /\
  (forall p s' r,
     get_link srv p s = (s', r) ->
     exists x, new_exchanges s s' = [x] /\
       forall resp e,
         answer x = inr resp -> failed x = None ->
         data_field "shortUrl" resp = Raised e ->
         r = Raised e /\ logger (self s') = logger (self s)).
Proof.
  split.
  - intros k s' r. rewrite search_keyword_eq. intros Hrun.
    exists (search_x srv k s).
    apply read_field_cases in Hrun
      as [(f & F & -> & ->) | (resp' & F & A & -> & ->)]; trace.
    + split; [done |]. intros; congruence.
    + split; [done |]. intros resp e A' _ D.
      assert (resp' = resp) as -> by congruence. by rewrite D.
  - intros p s' r. rewrite get_link_eq. intros Hrun.
    exists (link_x srv p s).
    apply read_field_cases in Hrun
      as [(f & F & -> & ->) | (resp' & F & A & -> & ->)]; trace.
    + split; [done |]. intros; congruence.
    + split; [done |]. intros resp e A' _ D.
      assert (resp' = resp) as -> by congruence. by rewrite D.
Qed.

(** C6, as first stated, fails: the error of a response without
    [data.products] reaches the caller, but no record is logged. *)
Lemma shape_error_not_logged :
  let srv := serving (PyDict ∅) in
  let s := logged_in "abc123" in
  let s' := fst (search_keyword srv "shoes" s) in
  let r := snd (search_keyword srv "shoes" s) in
  let x := search_x srv "shoes" s in
  let resp := {| status_code := 200; json_body := Some (PyDict ∅) |} in
  search_keyword srv "shoes" s = (s', r) /\
  new_exchanges s s' = [x] /\
  answer x = inr resp /\
  failed x = None /\
  data_field "products" resp = Raised (KeyError "data") /\
  r = Raised (KeyError "data") /\
  new_records s s' = [].
Proof. cbv zeta. do 6 (split; [reflexivity |]). reflexivity. Qed.

Example search_empty_document :
  let out := get_link (serving (PyDict ∅)) (PyDict ∅) (logged_in "abc123") in
  snd out = Raised (KeyError "data") /\ logger (self (fst out)) = [].
Proof. cbv zeta. split; reflexivity. Qed.

(** ** The page size *)



(** ** Headers *)

Lemma or_dict_default (h : option Headers) : or_dict h ∅ = default ∅ h.
Proof.
  destruct h as [m |]; [| reflexivity]. cbn.
  by destruct (decide (m = ∅)).
Qed.

(** Every request of the three operations goes out with headers built
    by [__get_headers]: from no custom headers for the two GETs, from the
    operation's own custom headers for the POSTs. *)
Lemma request_headers_merged srv s k p :
  headers (sent (login_x1 srv s)) = __get_headers (self s) None /\
  headers (sent (login_x2 srv s)) = login_headers (self s) /\
  headers (sent (login_x3 srv s)) = __get_headers (self s) None /\
  headers (sent (search_x srv k s)) = search_headers (self s) /\
  headers (sent (link_x srv p s)) = link_headers (self s).
Proof.
  cbn [login_x1 login_x3 exchange sent headers]. rewrite get_headers_default.
  repeat split.
Qed.

(** C8. The headers [__get_headers h] yields are the defaults
    ([User-Agent] and [accept-language]) overridden key by key by [h]
    (no custom headers when [h] is [None]): a key of [h] has [h]'s value,
    and any other key has its default value if it is a default key, and
    is absent otherwise. *)
Theorem get_headers_overrides_defaults c (h : option Headers) (k : string) :
  let custom : Headers := default ∅ h in
  default_headers c =
    {[ "User-Agent" := Some (user_agent c);
       "accept-language" := Some "ko,ko-KR;q=0.9,en;q=0.8,en-US;q=0.7" ]} /\
  (forall v, custom !! k = Some v -> __get_headers c h !! k = Some v) /\
  (custom !! k = None -> __get_headers c h !! k = default_headers c !! k).
Proof.
  cbn zeta. split; [reflexivity |].
  unfold __get_headers. rewrite or_dict_default. split.
  - intros v Hk. by apply lookup_union_Some_l.
  - intros Hk. by apply lookup_union_r.
Qed.

(** ** Repeating a search *)

Lemma read_field_result p f s x :
  snd (read_field p f s x) =
  match failed x with
  | Some e => Raised (RequestExn e)
  | None => match answer x with
            | inr r => data_field f r
            | inl e => Raised (RequestExn e)
            end
  end.
Proof. unfold read_field. by destruct (failed x). Qed.

Lemma read_field_same_answer p f s s' x y :
  answer x = answer y -> snd (read_field p f s x) = snd (read_field p f s' y).
Proof.
  intros E. rewrite !read_field_result. unfold failed. by rewrite E.
Qed.

Lemma search_x_answer_again srv k s s1 :
  history_blind srv -> cookie_blind srv ->
  token (self s1) = token (self s) ->
  user_agent (self s1) = user_agent (self s) ->
  answer (search_x srv k s1) = answer (search_x srv k s).
Proof.
  intros Hh Hc Ht Hu. unfold search_x, exchange; cbn [answer].
  rewrite (Hh (wire s1) (wire s)).
  assert (search_headers (self s1) = search_headers (self s)) as ->.
  { unfold search_headers, __get_headers, default_headers. by rewrite Ht, Hu. }
  symmetry.
  exact (Hc (wire s)
           {| method := POST; url := SEARCH_URL; headers := search_headers (self s);
              data := Some (search_body k); json := None; allow_redirects := None;
              cookies_sent := cookies (self s) |}
           (cookies (self s1))).
Qed.

(** C9 (amended). Two consecutive [search_keyword k] calls on the same
    client return equal results when the server's answer depends neither
    on earlier exchanges nor on the cookies it is sent; the token is
    unchanged by the first call.  The client keeps no cache, but its
    cookie jar changes with every exchange and is sent along. *)
Theorem search_keyword_idempotent srv k s s1 r1 s2 r2 :
  history_blind srv ->
  cookie_blind srv ->
  search_keyword srv k s = (s1, r1) ->
  search_keyword srv k s1 = (s2, r2) ->
  token (self s1) = token (self s) /\ r1 = r2.
Proof.
  intros Hh Hc H1 H2.
  assert (token (self s1) = token (self s) /\ user_agent (self s1) = user_agent (self s))
    as [Ht Hu].
  { rewrite search_keyword_eq in H1.
    by apply read_field_cases in H1 as [(e & _ & -> & _) | (resp & _ & _ & -> & _)]. }
  split; [exact Ht |].
  rewrite search_keyword_eq in H1, H2.
  change r1 with (snd (s1, r1)). change r2 with (snd (s2, r2)).
  rewrite <- H1, <- H2. symmetry.
  apply read_field_same_answer. by apply search_x_answer_again.
Qed.

(** C9, as first stated, fails: with an unchanged token and a server
    that is one fixed function of the request, the second search can
    differ from the first, because the request carries the cookies the
    first response left in the jar. *)
Lemma search_keyword_second_call_differs :
  let srv := seen_server in
  let s := logged_in "abc123" in
  let s1 := fst (search_keyword srv "shoes" s) in
  let r1 := snd (search_keyword srv "shoes" s) in
  let s2 := fst (search_keyword srv "shoes" s1) in
  let r2 := snd (search_keyword srv "shoes" s1) in
  history_blind srv /\
  search_keyword srv "shoes" s = (s1, r1) /\
  search_keyword srv "shoes" s1 = (s2, r2) /\
  token (self s1) = token (self s) /\
  r1 = Returned (PyList [PyDict ∅; PyDict ∅]) /\
  r2 = Returned (PyList []) /\
  r1 <> r2.
Proof.
  cbv zeta. split; [intros h h' req; reflexivity |].
  do 5 (split; [reflexivity |]).
  change (Returned (PyList [PyDict ∅; PyDict ∅]) <> Returned (PyList [])).
  intros E. discriminate E.
Qed.

Example search_twice_seen_server :
  let s1 := fst (search_keyword seen_server "shoes" (logged_in "abc123")) in
  cookies (self (logged_in "abc123")) !! "seen" = None /\
  cookies (self s1) !! "seen" = Some "1" /\
  cookies_sent (sent (search_x seen_server "shoes" s1)) !! "seen" = Some "1".
Proof. cbv zeta. split; [| split]; reflexivity. Qed.

(* ===================================================================== *)
(** * The theorems at concrete runs *)
(* ===================================================================== *)



(** A client holding the token [old] logs in again while the network
    goes down after the first request. *)
Lemma login_failure_keeps_token_witness :
  let srv := drops_after_first in
  let s := logged_in "old" in
  let s' := fst (login srv s) in
  let e := RequestExn (ConnectionError "connection reset") in
  login srv s = (s', Raised e) /\
  token (self s') = token (self s) /\
  token (self s') = Some "old".
Proof.
  cbv zeta. split; [reflexivity |]. split; [| reflexivity].
  exact (login_failure_keeps_token drops_after_first (logged_in "old")
           (fst (login drops_after_first (logged_in "old")))
           (RequestExn (ConnectionError "connection reset")) eq_refl).
Defined.




(** A search and a link request answered [200] with the empty document. *)
Lemma shape_error_propagates_unlogged_witness :
  let srv := serving (PyDict ∅) in
  let s := logged_in "abc123" in
  let resp := {| status_code := 200; json_body := Some (PyDict ∅) |} in
  (let s' := fst (search_keyword srv "shoes" s) in
   let r := snd (search_keyword srv "shoes" s) in
   search_keyword srv "shoes" s = (s', r) /\
   new_exchanges s s' = [search_x srv "shoes" s] /\
   answer (search_x srv "shoes" s) = inr resp /\
   failed (search_x srv "shoes" s) = None /\
   data_field "products" resp = Raised (KeyError "data") /\
   r = Raised (KeyError "data") /\ logger (self s') = logger (self s)) /\
  (let s' := fst (get_link srv PyNone s) in
   let r := snd (get_link srv PyNone s) in
   get_link srv PyNone s = (s', r) /\
   new_exchanges s s' = [link_x srv PyNone s] /\
   answer (link_x srv PyNone s) = inr resp /\
   failed (link_x srv PyNone s) = None /\
   data_field "shortUrl" resp = Raised (KeyError "data") /\
   r = Raised (KeyError "data") /\ logger (self s') = logger (self s)).
Proof.
  cbv zeta.
  destruct (shape_error_propagates_unlogged (serving (PyDict ∅)) (logged_in "abc123"))
    as [Hs Hl].
  split.
  - do 5 (split; [reflexivity |]).
    assert (E : search_keyword (serving (PyDict ∅)) "shoes" (logged_in "abc123") =
                (fst (search_keyword (serving (PyDict ∅)) "shoes" (logged_in "abc123")),
                 snd (search_keyword (serving (PyDict ∅)) "shoes" (logged_in "abc123"))))
      by reflexivity.
    destruct (Hs "shoes" _ _ E) as (x & Hx & H).
    change (new_exchanges _ _)
      with [search_x (serving (PyDict ∅)) "shoes" (logged_in "abc123")] in Hx.
    injection Hx as <-.
    exact (H {| status_code := 200; json_body := Some (PyDict ∅) |} (KeyError "data")
             eq_refl eq_refl eq_refl).
  - do 5 (split; [reflexivity |]).
    assert (E : get_link (serving (PyDict ∅)) PyNone (logged_in "abc123") =
                (fst (get_link (serving (PyDict ∅)) PyNone (logged_in "abc123")),
                 snd (get_link (serving (PyDict ∅)) PyNone (logged_in "abc123"))))
      by reflexivity.
    destruct (Hl PyNone _ _ E) as (x & Hx & H).
    change (new_exchanges _ _)
      with [link_x (serving (PyDict ∅)) PyNone (logged_in "abc123")] in Hx.
    injection Hx as <-.
    exact (H {| status_code := 200; json_body := Some (PyDict ∅) |} (KeyError "data")
             eq_refl eq_refl eq_refl).
Defined.


(** Custom headers that replace [User-Agent] and add [X-Token], on a
    client with the default user agent. *)
Lemma get_headers_overrides_defaults_witness :
  let c := __init__ "u" "p" None in
  let h : Headers := {[ "User-Agent" := Some "curl/8"; "X-Token" := Some "abc123" ]} in
  (h !! "User-Agent" = Some (Some "curl/8") /\
   __get_headers c (Some h) !! "User-Agent" = Some (Some "curl/8")) /\
  (h !! "X-Token" = Some (Some "abc123") /\
   __get_headers c (Some h) !! "X-Token" = Some (Some "abc123")) /\
  (h !! "accept-language" = None /\
   __get_headers c (Some h) !! "accept-language" =
     Some (Some "ko,ko-KR;q=0.9,en;q=0.8,en-US;q=0.7")).
Proof.
  cbv zeta.
  pose (c := __init__ "u" "p" None).
  pose (h := ({[ "User-Agent" := Some "curl/8"; "X-Token" := Some "abc123" ]} : Headers)).
  split; [| split].
  - split; [reflexivity |].
    exact (proj1 (proj2 (get_headers_overrides_defaults c (Some h) "User-Agent"))
             _ eq_refl).
  - split; [reflexivity |].
    exact (proj1 (proj2 (get_headers_overrides_defaults c (Some h) "X-Token"))
             _ eq_refl).
  - split; [reflexivity |].
    exact (proj2 (proj2 (get_headers_overrides_defaults c (Some h) "accept-language"))
             eq_refl).
Defined.

(** Two searches against a server that always serves the same two
    products and looks neither at the history nor at the cookies. *)
Lemma search_keyword_idempotent_witness :
  let srv := serving (products_doc 2) in
  let s := logged_in "abc123" in
  let s1 := fst (search_keyword srv "shoes" s) in
  let r1 := snd (search_keyword srv "shoes" s) in
  let s2 := fst (search_keyword srv "shoes" s1) in
  let r2 := snd (search_keyword srv "shoes" s1) in
  history_blind srv /\
  cookie_blind srv /\
  search_keyword srv "shoes" s = (s1, r1) /\
  search_keyword srv "shoes" s1 = (s2, r2) /\
  token (self s1) = token (self s) /\ r1 = r2.
Proof.
  cbv zeta.
  assert (Hh : history_blind (serving (products_doc 2))) by (intros h h' req; reflexivity).
  assert (Hc : cookie_blind (serving (products_doc 2))) by (intros h req c; reflexivity).
  split; [exact Hh |]. split; [exact Hc |].
  split; [reflexivity |]. split; [reflexivity |].
  exact (search_keyword_idempotent (serving (products_doc 2)) "shoes" (logged_in "abc123")
           (fst (search_keyword (serving (products_doc 2)) "shoes" (logged_in "abc123")))
           (snd (search_keyword (serving (products_doc 2)) "shoes" (logged_in "abc123")))
           (fst (search_keyword (serving (products_doc 2)) "shoes"
                   (fst (search_keyword (serving (products_doc 2)) "shoes"
                           (logged_in "abc123")))))
           (snd (search_keyword (serving (products_doc 2)) "shoes"
                   (fst (search_keyword (serving (products_doc 2)) "shoes"
                           (logged_in "abc123")))))
           Hh Hc eq_refl eq_refl).
Defined.

(* ===================================================================== *)
(** * Further properties of the crawler *)
(* ===================================================================== *)

(** ** Construction and header merging *)

(** X1. A new crawler holds no token, no cookie and an empty log, and its
    user agent is never empty: a non-empty [user_agent] argument is kept,
    [None] and the empty string both select the built-in mobile user
    agent. *)
Theorem init_user_agent_never_empty u p (ua : option string) :
  let c := __init__ u p ua in
  token c = None /\ cookies c = ∅ /\ logger c = [] /\
  user_agent c <> "" /\
  (forall x, ua = Some x -> x <> "" -> user_agent c = x) /\
  (ua = None \/ ua = Some "" -> user_agent c = DEFAULT_USER_AGENT).
Proof.
  cbv zeta. unfold __init__; cbn [token cookies logger user_agent].
  do 3 (split; [reflexivity |]). split; [| split].
  - destruct ua as [x |]; cbn [or_str]; [| discriminate].
    destruct (decide (x = "")); [discriminate | assumption].
  - intros x -> N. cbn [or_str]. by destruct (decide (x = "")).
  - intros [-> | ->]; reflexivity.
Qed.

(** X2. The keys of the merged headers are exactly the custom keys
    together with [User-Agent] and [accept-language]: merging never
    drops a key and adds no other.  Keys are compared as written, so a
    custom [user-agent] stands beside the default [User-Agent]. *)
Theorem get_headers_keys c (h : option Headers) :
  dom (__get_headers c h) =
    dom (default (∅ : Headers) h) ∪ {[ "User-Agent"; "accept-language" ]} /\
  (forall v, default (∅ : Headers) h !! "user-agent" = Some v ->
     __get_headers c h !! "user-agent" = Some v /\
     __get_headers c h !! "User-Agent" =
       match default (∅ : Headers) h !! "User-Agent" with
       | Some w => Some w
       | None => Some (Some (user_agent c))
       end).
Proof.
  unfold __get_headers. rewrite or_dict_default. split.
  - rewrite dom_union_L; f_equal; unfold default_headers;
      by rewrite ?dom_insert_L, ?dom_singleton_L.
  - intros v Hv. split; [by apply lookup_union_Some_l |].
    rewrite lookup_union.
    destruct (default ∅ h !! "User-Agent") as [w |] eqn:E;
      unfold default_headers; rewrite lookup_insert_eq; reflexivity.
Qed.

(** X3. Merging is idempotent, and the empty dict counts as no custom
    headers: feeding merged headers back in changes nothing, so headers
    built by [__get_headers] pass through [headers or
    self.__get_headers()] in [__get] / [__post] as they are. *)
Theorem get_headers_idempotent c (h : option Headers) :
  __get_headers c (Some (__get_headers c h)) = __get_headers c h /\
  __get_headers c (Some ∅) = __get_headers c None /\
  or_dict (Some (__get_headers c h)) (__get_headers c None) = __get_headers c h.
Proof.
  split; [| split].
  - unfold __get_headers at 1. rewrite or_dict_truthy by apply get_headers_nonempty.
    unfold __get_headers. rewrite <- (assoc (∪)).
    by rewrite (idemp (∪) (default_headers c)).
  - reflexivity.
  - apply or_dict_truthy, get_headers_nonempty.
Qed.

(** ** The private request methods *)

Lemma status_check_true (resp : Response) :
  (400 <=? status_code resp) && (status_code resp <? 600) = true <->
  400 <= status_code resp < 600.
Proof. rewrite andb_true_iff, Z.leb_le, Z.ltb_lt. reflexivity. Qed.

Lemma failed_Some_inv x e :
  failed x = Some e ->
  answer x = inl e \/
  exists resp, answer x = inr resp /\ 400 <= status_code resp < 600 /\
               e = HTTPError (status_code resp).
Proof.
  destruct (answer x) as [f | resp] eqn:A.
  - rewrite (failed_inl _ _ A). intros [= ->]. by left.
  - rewrite (failed_inr _ _ A).
    destruct ((400 <=? status_code resp) && (status_code resp <? 600)) eqn:C;
      [| discriminate].
    intros [= <-]. right. exists resp. by rewrite <- status_check_true.
Qed.

Lemma failed_None_inv x :
  failed x = None ->
  exists resp, answer x = inr resp /\ ~ (400 <= status_code resp < 600).
Proof.
  intros F. destruct (failed_None _ F) as [resp A]. exists resp. split; [exact A |].
  rewrite (failed_inr _ _ A) in F. rewrite <- status_check_true.
  by destruct ((400 <=? status_code resp) && (status_code resp <? 600)).
Qed.

Lemma failed_None_of_pass x resp :
  answer x = inr resp -> ~ (400 <= status_code resp < 600) -> failed x = None.
Proof.
  intros A N. rewrite (failed_inr _ _ A). rewrite <- status_check_true in N.
  by destruct ((400 <=? status_code resp) && (status_code resp <? 600)).
Qed.

Lemma private_request_eq srv m u h d j red s :
  private_request srv m u h d j red s =
  settle (failure_prefix m) s
    (exchange srv s m u (or_dict h (default_headers (self s)))
       (match m with GET => None | POST => d end)
       (match m with GET => None | POST => j end)
       (match m with GET => Some true | POST => red end)).
Proof.
  destruct m; cbn [private_request failure_prefix].
  - unfold __get, try_except, bind, get_self, Session_get, Session_request,
      lift, ret, logger_error, emit, raise, settle, exchange, received, noted,
      error_record.
    rewrite get_headers_default. cbn [self wire sent answer jar].
    destruct (srv _ _) as [j' [e | resp]] eqn:E; cbn [fst snd].
    + reflexivity.
    + unfold failed; cbn [answer]. unfold raise_for_status.
      destruct ((400 <=? status_code resp) && (status_code resp <? 600)); reflexivity.
  - unfold __post, try_except, bind, get_self, Session_post, Session_request,
      lift, ret, logger_error, emit, raise, settle, exchange, received, noted,
      error_record.
    rewrite get_headers_default. cbn [self wire sent answer jar].
    destruct (srv _ _) as [j' [e | resp]] eqn:E; cbn [fst snd].
    + reflexivity.
    + unfold failed; cbn [answer]. unfold raise_for_status.
      destruct ((400 <=? status_code resp) && (status_code resp <? 600)); reflexivity.
Qed.

Lemma settle_exchange p s x : new_exchanges s (fst (settle p s x)) = [x].
Proof. unfold settle. destruct (failed x); cbn [fst]; by trace. Qed.

(** X4. [__get] and [__post] send exactly one request.  Headers passed
    to them are used as they are when the dict is non-empty - the default
    headers are not merged into them - and the default headers are used
    when the argument is [None] or empty.  [__get] sends no body and
    follows redirects; [__post] hands [data], [json] and
    [allow_redirects] on unchanged. *)
Theorem private_request_sends srv m u (h : option Headers) d j red s :
  exists x,
    new_exchanges s (fst (private_request srv m u h d j red s)) = [x] /\
    method (sent x) = m /\ url (sent x) = u /\
    cookies_sent (sent x) = cookies (self s) /\
    (forall hs, h = Some hs -> hs <> ∅ -> headers (sent x) = hs) /\
    (h = None \/ h = Some ∅ -> headers (sent x) = default_headers (self s)) /\
    (m = GET ->
     data (sent x) = None /\ json (sent x) = None /\
     allow_redirects (sent x) = Some true) /\
    (m = POST ->
     data (sent x) = d /\ json (sent x) = j /\ allow_redirects (sent x) = red).
Proof.
  rewrite private_request_eq. eexists. split; [apply settle_exchange |].
  cbn [exchange sent method url cookies_sent headers data json allow_redirects].
  do 3 (split; [reflexivity |]). split; [| split; [| split]].
  - intros hs -> N. by apply or_dict_truthy.
  - intros [-> | ->]; reflexivity.
  - by intros ->.
  - by intros ->.
Qed.

(** X5. [__get] and [__post] return the response exactly when one
    arrived whose status is not 4xx/5xx (so a 3xx response is returned
    like a 2xx one), logging nothing; otherwise they raise the transport
    failure or the [HTTPError], after logging one error record whose
    message starts with the method's own text.  Neither touches the
    stored token. *)
Theorem private_request_result srv m u h d j red s s' r :
  private_request srv m u h d j red s = (s', r) ->
  exists x,
    new_exchanges s s' = [x] /\
    token (self s') = token (self s) /\
    (forall resp,
       r = Returned resp <->
       answer x = inr resp /\ ~ (400 <= status_code resp < 600)) /\
    (forall resp, r = Returned resp -> logger (self s') = logger (self s)) /\
    (forall e,
       r = Raised e ->
       exists f,
         e = RequestExn f /\
         (answer x = inl f \/
          exists resp, answer x = inr resp /\ 400 <= status_code resp < 600 /\
                       f = HTTPError (status_code resp)) /\
         logger (self s') =
           logger (self s) ++
           [{| levelname := ERROR; prefix := failure_prefix m; arg := ArgExn f |}]).
Proof.
  rewrite private_request_eq. unfold settle.
  set (x := exchange _ _ _ _ _ _ _ _). clearbody x.
  destruct (failed x) as [f |] eqn:F.
  - intros [= <- <-]. exists x. trace.
    split; [reflexivity |]. split; [reflexivity |]. split; [| split].
    + intros resp. split; [discriminate |]. intros [A N].
      rewrite (failed_None_of_pass _ _ A N) in F. discriminate.
    + discriminate.
    + intros e [= <-]. exists f. split; [reflexivity |].
      split; [by apply failed_Some_inv | reflexivity].
  - destruct (failed_None_inv _ F) as (resp & A & N). rewrite A.
    intros [= <- <-]. exists x. trace.
    split; [reflexivity |]. split; [reflexivity |]. split; [| split].
    + intros resp'. split.
      * intros [= <-]. by split.
      * intros [A' _]. congruence.
    + reflexivity.
    + discriminate.
Qed.

(** ** What every operation keeps and leaves behind *)

Lemma run_login srv s s' r :
  run srv Login s = (s', r) ->
  exists b, login_run srv s s' b /\
            r = match b with Returned v => Returned (PyBool v) | Raised e => Raised e end.
Proof.
  cbn [run]. unfold bind, ret. destruct (login srv s) as [s1 r1] eqn:L.
  apply login_cases in L. destruct r1; intros [= <- <-]; eauto.
Qed.

Lemma run_read srv op f s :
  result_field op = Some f ->
  exists x,
    run srv op s = read_field "POST request failed: " f s x /\
    (x = match op with
         | GetLink p => link_x srv p s
         | SearchKeyword k => search_x srv k s
         | Login => x
         end).
Proof.
  destruct op as [| k | p]; cbn [result_field run]; [discriminate | |]; intros [= <-].
  - exists (search_x srv k s). split; [apply search_keyword_eq | reflexivity].
  - exists (link_x srv p s). split; [apply get_link_eq | reflexivity].
Qed.

Lemma login_run_members srv s s' r x :
  login_run srv s s' r ->
  x ∈ new_exchanges s s' ->
  x = login_x1 srv s \/ x = login_x2 srv s \/ x = login_x3 srv s.
Proof.
  intros R Hin.
  destruct R; trace;
    repeat (apply elem_of_cons in Hin as [-> | Hin]; [auto |]);
    by apply elem_of_nil in Hin.
Qed.

Lemma merged_default c (hs : Headers) k :
  hs <> ∅ -> hs !! k = None ->
  __get_headers c (Some hs) !! k = default_headers c !! k.
Proof.
  intros N L. unfold __get_headers. rewrite (or_dict_truthy _ _ N).
  by apply lookup_union_r.
Qed.

Lemma default_headers_lookup c :
  default_headers c !! "User-Agent" = Some (Some (user_agent c)) /\
  default_headers c !! "accept-language" =
    Some (Some "ko,ko-KR;q=0.9,en;q=0.8,en-US;q=0.7").
Proof. split; reflexivity. Qed.

Lemma operation_headers_default c k :
  k = "User-Agent" \/ k = "accept-language" ->
  login_headers c !! k = default_headers c !! k /\
  search_headers c !! k = default_headers c !! k /\
  link_headers c !! k = default_headers c !! k.
Proof.
  intros Hk. unfold login_headers, search_headers, link_headers.
  repeat split; apply merged_default;
    try apply insert_non_empty; destruct Hk as [-> | ->]; reflexivity.
Qed.

(** X6. No operation changes the credentials or the user agent, and
    [search_keyword] and [get_link] never change the token, whether they
    return or raise.  The log and the list of exchanges only grow: what
    was there stays, in place. *)
Theorem operations_keep_identity srv op s s' r :
  run srv op s = (s', r) ->
  username (self s') = username (self s) /\
  password (self s') = password (self s) /\
  user_agent (self s') = user_agent (self s) /\
  logger (self s) `prefix_of` logger (self s') /\
  wire s `prefix_of` wire s' /\
  (op <> Login -> token (self s') = token (self s)).
Proof.
  intros Hrun. destruct (result_field op) as [f |] eqn:Hf.
  - destruct (run_read srv op f s Hf) as (x & E & _). rewrite E in Hrun.
    apply read_field_cases in Hrun
      as [(e & _ & -> & _) | (resp & _ & _ & -> & _)];
      cbn [self wire noted received username password user_agent logger token];
      (do 3 (split; [reflexivity |]));
      (split; [first [reflexivity | by eexists] |]);
      (split; [by eexists | reflexivity]).
  - destruct op; try discriminate Hf.
    apply run_login in Hrun as (b & R & _).
    destruct R;
      cbn [self wire noted received with_token username password user_agent logger token];
      rewrite <- ?app_assoc;
      (do 3 (split; [reflexivity |]));
      (split; [by eexists |]);
      (split; [by eexists | intros N; by destruct N]).
Qed.


Lemma read_field_failure_record p f s x s' r y e :
  read_field p f s x = (s', r) ->
  y ∈ new_exchanges s s' ->
  failed y = Some e ->
  y = x /\ new_records s s' = [error_record p e].
Proof.
  intros Hrun Hin Hy.
  apply read_field_cases in Hrun
    as [(f0 & F & -> & _) | (resp & F & _ & -> & _)]; trace;
    apply list_elem_of_singleton in Hin as ->.
  - split; [reflexivity |]. assert (e = f0) as -> by congruence.
    by apply new_records_noted.
  - congruence.
Qed.

(** X8. The error record logged for a failed request names the method
    of that request: ["GET request failed: "] for the two GETs of
    [login], ["POST request failed: "] for its POST and for the requests
    of [search_keyword] and [get_link]. *)
Theorem error_record_names_method srv op s s' r x e :
  run srv op s = (s', r) ->
  x ∈ new_exchanges s s' ->
  failed x = Some e ->
  new_records s s' =
    [{| levelname := ERROR; prefix := failure_prefix (method (sent x));
        arg := ArgExn e |}].
Proof.
  intros Hrun Hin Hx. destruct (result_field op) as [f |] eqn:Hf.
  - destruct (run_read srv op f s Hf) as (y & E & Hy). rewrite E in Hrun.
    destruct (read_field_failure_record _ _ _ _ _ _ _ _ Hrun Hin Hx) as [-> ->].
    destruct op; try discriminate Hf; subst y; reflexivity.
  - destruct op; try discriminate Hf.
    apply run_login in Hrun as (b & R & _).
    destruct R as [f F1 | f F1 F2 | f F1 F2 F3 | F1 F2 F3]; trace.
    + apply list_elem_of_singleton in Hin as ->.
      assert (e = f) as -> by congruence. by apply new_records_noted.
    + assert (x = login_x2 srv s) as ->.
      { apply elem_of_cons in Hin as [-> | ->%list_elem_of_singleton];
          [congruence | done]. }
      assert (e = f) as -> by congruence. by apply new_records_noted.
    + assert (x = login_x3 srv s) as ->.
      { apply elem_of_cons in Hin as [-> | Hin]; [congruence |].
        apply elem_of_cons in Hin as [-> | ->%list_elem_of_singleton];
          [congruence | done]. }
      assert (e = f) as -> by congruence. by apply new_records_noted.
    + exfalso. apply elem_of_cons in Hin as [-> | Hin]; [congruence |].
      apply elem_of_cons in Hin as [-> | ->%list_elem_of_singleton]; congruence.
Qed.

(** X9. Every request of every operation carries the client's
    [User-Agent] and the fixed [accept-language] header: none of the
    custom headers of the three operations overrides a default. *)
Theorem default_headers_always_sent srv op s s' r x :
  run srv op s = (s', r) ->
  x ∈ new_exchanges s s' ->
  headers (sent x) !! "User-Agent" = Some (Some (user_agent (self s))) /\
  headers (sent x) !! "accept-language" =
    Some (Some "ko,ko-KR;q=0.9,en;q=0.8,en-US;q=0.7").
Proof.
  intros Hrun Hin.
  destruct (operation_headers_default (self s) "User-Agent") as (L1 & S1 & K1);
    [by left |].
  destruct (operation_headers_default (self s) "accept-language") as (L2 & S2 & K2);
    [by right |].
  destruct (default_headers_lookup (self s)) as [D1 D2].
  destruct (result_field op) as [f |] eqn:Hf.
  - destruct (run_read srv op f s Hf) as (y & E & Hy). rewrite E in Hrun.
    assert (x = y) as ->.
    { apply read_field_cases in Hrun
        as [(e & _ & -> & _) | (resp & _ & _ & -> & _)]; trace;
        by apply list_elem_of_singleton in Hin. }
    destruct op; try discriminate Hf; subst y;
      cbn [search_x link_x exchange sent headers]; split; congruence.
  - destruct op; try discriminate Hf.
    apply run_login in Hrun as (b & R & _).
    destruct (login_run_members _ _ _ _ _ R Hin) as [-> | [-> | ->]];
      cbn [login_x1 login_x2 login_x3 exchange sent headers]; split; congruence.
Qed.

(** ** Reading the response document *)

Lemma data_field_Returned field resp v :
  data_field field resp = Returned v <->
  exists body d,
    json_body resp = Some (PyDict body) /\
    body !! "data" = Some (PyDict d) /\
    d !! field = Some v.
Proof.
  split.
  - unfold data_field, response_json, getitem.
    destruct (json_body resp) as [[| | | | | | body] |]; try discriminate.
    destruct (body !! "data") as [[| | | | | | d] |] eqn:B; try discriminate.
    destruct (d !! field) as [w |] eqn:D; [| discriminate].
    intros [= <-]. exists body, d. auto.
  - intros (body & d & J & B & D). by eapply data_field_found.
Qed.

Lemma run_read_cases srv op f s s' r :
  run srv op s = (s', r) ->
  result_field op = Some f ->
  exists x,
    new_exchanges s s' = [x] /\
    cookies_sent (sent x) = cookies (self s) /\
    headers (sent x) !! "X-Token" = Some (token (self s)) /\
    ((exists e, failed x = Some e /\ r = Raised (RequestExn e)) \/
     (exists resp, failed x = None /\ answer x = inr resp /\
                   s' = received s x /\ r = data_field f resp)).
Proof.
  intros Hrun Hf. destruct (run_read srv op f s Hf) as (x & E & Hx).
  rewrite E in Hrun. exists x.
  assert (Hs : cookies_sent (sent x) = cookies (self s) /\
               headers (sent x) !! "X-Token" = Some (token (self s))).
  { destruct op as [| k | q]; [discriminate Hf | |]; subst x.
    - split; [reflexivity | apply search_headers_token].
    - split; [reflexivity | apply link_headers_token]. }
  destruct Hs as [Hc Ht].
  apply read_field_cases in Hrun
    as [(e & F & -> & ->) | (resp & F & A & -> & ->)]; trace;
    (split; [reflexivity |]); (split; [exact Hc |]); (split; [exact Ht |]).
  - left. eauto.
  - right. eauto.
Qed.

(** X10. [search_keyword] / [get_link] return a value [v] exactly when
    the response arrived with a status that is not 4xx/5xx, its body is
    a JSON object whose ["data"] member is an object, and that object
    has the member ["products"] / ["shortUrl"] with value [v].  The
    status is not otherwise looked at, and the value is not checked to
    be a list or a string. *)
Theorem read_returns_iff srv op f s s' r :
  run srv op s = (s', r) ->
  result_field op = Some f ->
  exists x,
    new_exchanges s s' = [x] /\
    forall v,
      r = Returned v <->
      exists resp body d,
        answer x = inr resp /\ ~ (400 <= status_code resp < 600) /\
        json_body resp = Some (PyDict body) /\
        body !! "data" = Some (PyDict d) /\
        d !! f = Some v.
Proof.
  intros Hrun Hf.
  destruct (run_read_cases _ _ _ _ _ _ Hrun Hf)
    as (x & Hx & _ & _ & [(e & F & ->) | (resp & F & A & _ & ->)]);
    exists x; (split; [exact Hx |]); intros v; split.
  - discriminate.
  - intros (resp & body & d & A & N & _).
    rewrite (failed_None_of_pass _ _ A N) in F. discriminate.
  - intros D. apply data_field_Returned in D as (body & d & J & B & D).
    destruct (failed_None_inv _ F) as (resp' & A' & N).
    assert (resp' = resp) as -> by congruence.
    exists resp, body, d. auto.
  - intros (resp' & body & d & A' & _ & J & B & D).
    assert (resp' = resp) as -> by congruence.
    apply data_field_Returned. eauto.
Qed.

(** X11. Which exception a response of unexpected shape raises in
    [search_keyword] / [get_link], once the request itself has passed:
    [JSONDecodeError] for a body that is not JSON; [TypeError] when the
    document, or its ["data"] member (for instance [null]), is not an
    object; [KeyError('data')] when ["data"] is missing; and
    [KeyError] of the wanted field when ["data"] lacks it. *)
Theorem response_shape_errors srv op f s s' r x resp :
  run srv op s = (s', r) ->
  result_field op = Some f ->
  new_exchanges s s' = [x] ->
  answer x = inr resp ->
  ~ (400 <= status_code resp < 600) ->
  (json_body resp = None -> r = Raised JSONDecodeError) /\
  (forall body, json_body resp = Some body -> is_mapping body = false ->
     r = Raised TypeError) /\
  (forall b, json_body resp = Some (PyDict b) -> b !! "data" = None ->
     r = Raised (KeyError "data")) /\
  (forall b dv, json_body resp = Some (PyDict b) -> b !! "data" = Some dv ->
     is_mapping dv = false -> r = Raised TypeError) /\
  (forall b d, json_body resp = Some (PyDict b) -> b !! "data" = Some (PyDict d) ->
     d !! f = None -> r = Raised (KeyError f)).
Proof.
  intros Hrun Hf Hx A N.
  destruct (run_read_cases _ _ _ _ _ _ Hrun Hf)
    as (y & Hy & _ & _ & [(e & F & _) | (resp' & _ & A' & _ & ->)]).
  { assert (y = x) as -> by congruence.
    rewrite (failed_None_of_pass _ _ A N) in F. discriminate. }
  assert (y = x) as -> by congruence.
  assert (resp' = resp) as -> by congruence.
  unfold data_field, response_json, getitem. repeat split.
  - by intros ->.
  - intros body -> M. by destruct body.
  - intros b -> B. by rewrite B.
  - intros b dv -> B M. rewrite B. by destruct dv.
  - intros b d -> B D. by rewrite B, D.
Qed.

(** ** The token, from login to the authenticated calls *)



(** X13. A crawler that has never logged in still sends its
    [search_keyword] / [get_link] request - nothing is checked locally -
    with the [X-Token] header present and set to [None], and with no
    cookie. *)
Theorem unauthenticated_request_is_sent srv op f u p ua s' r :
  result_field op = Some f ->
  run srv op {| self := __init__ u p ua; wire := [] |} = (s', r) ->
  exists x,
    wire s' = [x] /\
    url (sent x) = match op with SearchKeyword _ => SEARCH_URL | _ => BANNER_URL end /\
    headers (sent x) !! "X-Token" = Some None /\
    cookies_sent (sent x) = ∅.
Proof.
  intros Hf Hrun.
  destruct (run_read srv op f {| self := __init__ u p ua; wire := [] |} Hf)
    as (x & E & Hx).
  destruct (run_read_cases _ _ _ _ _ _ Hrun Hf) as (y & Hy & Hc & Ht & _).
  rewrite E in Hrun.
  assert (Hw : wire s' = [x]).
  { apply read_field_cases in Hrun
      as [(e & _ & -> & _) | (resp & _ & _ & -> & _)]; reflexivity. }
  assert (y = x) as ->.
  { unfold new_exchanges in Hy. rewrite Hw in Hy. cbn in Hy. congruence. }
  exists x. split; [exact Hw |].
  split; [destruct op; try discriminate Hf; subst x; reflexivity |].
  split; [exact Ht | exact Hc].
Qed.



(** ** The script *)

Lemma login_endpoints srv s s' r :
  login srv s = (s', r) ->
  exists es,
    map endpoint (wire s') = map endpoint (wire s) ++ es /\
    es `prefix_of` plan Login /\
    (forall b, r = Returned b -> es = plan Login).
Proof.
  intros Hrun. apply login_cases in Hrun.
  destruct Hrun; cbn [wire noted with_token received]; rewrite !map_app;
    rewrite <- ?app_assoc; eexists; (split; [reflexivity |]); cbn [map app plan];
    (split; [by eexists || by exists [] |]); intros b Hb; try discriminate Hb;
    reflexivity.
Qed.

Lemma read_endpoints srv op f s s' r :
  run srv op s = (s', r) ->
  result_field op = Some f ->
  map endpoint (wire s') = map endpoint (wire s) ++ plan op.
Proof.
  intros Hrun Hf. destruct (run_read srv op f s Hf) as (x & E & Hx).
  rewrite E in Hrun.
  assert (Hw : wire s' = wire s ++ [x]).
  { apply read_field_cases in Hrun
      as [(e & _ & -> & _) | (resp & _ & _ & -> & _)]; reflexivity. }
  rewrite Hw, map_app. f_equal.
  destruct op; try discriminate Hf; subst x; reflexivity.
Qed.


(** X16. When the login requests all pass but leave no [AFATK] cookie in
    the jar, the script ends with [Exception("Login failed. Please check
    your username and password.")] after exactly the three login
    requests: the search and link endpoints are never contacted. *)
Theorem script_login_refused srv u p s1 r1 :
  login srv (fresh u p) = (s1, r1) ->
  Forall (fun x => failed x = None) (new_exchanges (fresh u p) s1) ->
  cookies (self s1) !! "AFATK" = None ->
  main srv u p =
    (s1, Crashed (Exception "Login failed. Please check your username and password.")) /\
  map endpoint (wire s1) =
    [(GET, LOGIN_URL); (POST, LOGIN_PROCESS_URL); (GET, POSTLOGIN_URL)].
Proof.
  intros L Hok Hjar.
  destruct (login_endpoints _ _ _ _ L) as (es & W1 & _ & F1).
  unfold main. change {| self := __init__ u p None; wire := [] |} with (fresh u p).
  rewrite L. apply login_cases in L.
  destruct (login_run_completed _ _ _ _ L Hok) as [Hs ->].
  rewrite (F1 _ eq_refl) in W1.
  assert (J : jar (login_x3 srv (fresh u p)) !! "AFATK" = None).
  { rewrite Hs in Hjar. exact Hjar. }
  rewrite J. split; [reflexivity | exact W1].
Qed.

Lemma read_token_kept srv op f s s' r :
  run srv op s = (s', r) ->
  result_field op = Some f ->
  token (self s') = token (self s).
Proof.
  intros Hrun Hf. destruct (run_read srv op f s Hf) as (x & E & _).
  rewrite E in Hrun.
  by apply read_field_cases in Hrun
    as [(e & _ & -> & _) | (resp & _ & _ & -> & _)].
Qed.

Lemma get_link_wire srv p s s' r :
  get_link srv p s = (s', r) -> wire s' = wire s ++ [link_x srv p s].
Proof.
  rewrite get_link_eq. intros Hrun.
  by apply read_field_cases in Hrun
    as [(e & _ & -> & _) | (resp & _ & _ & -> & _)].
Qed.

(** X17. The product the script asks a link for is the first element of
    the search result, sent as [{product: first}] with the login token;
    later elements are never sent. *)
Theorem script_links_first_product srv u p s1 s2 first rest :
  login srv (fresh u p) = (s1, Returned true) ->
  search_keyword srv "신발" s1 = (s2, Returned (PyList (first :: rest))) ->
  exists x,
    wire (fst (main srv u p)) = wire s2 ++ [x] /\
    url (sent x) = BANNER_URL /\
    json (sent x) = Some (PyDict {[ "product" := first ]}) /\
    headers (sent x) !! "X-Token" = Some (token (self s1)) /\
    snd (main srv u p) =
      match snd (get_link srv first s2) with
      | Returned short_url => Finished short_url
      | Raised e => Crashed (Uncaught e)
      end.
Proof.
  intros L S. unfold main.
  change {| self := __init__ u p None; wire := [] |} with (fresh u p).
  rewrite L, S. cbn [iterable first_item].
  pose proof (read_token_kept srv (SearchKeyword "신발") "products" _ _ _ S eq_refl) as Ht.
  destruct (get_link srv first s2) as [s3 r3] eqn:G.
  pose proof (get_link_wire _ _ _ _ _ G) as Hw.
  exists (link_x srv first s2).
  split; [by destruct r3 |]. split; [reflexivity |]. split; [reflexivity |].
  split; [rewrite <- Ht; apply link_headers_token |].
  by destruct r3.
Qed.

(** X18. A search result the script cannot index ends it before any
    link request: the empty list with [IndexError], a JSON object with
    [KeyError(0)], and [null], a number or a boolean with [TypeError]
    (raised by the [for] loop).  In each case the last request sent is
    the search. *)
Theorem script_unusable_products srv u p s1 s2 products :
  login srv (fresh u p) = (s1, Returned true) ->
  search_keyword srv "신발" s1 = (s2, Returned products) ->
  (products = PyList [] -> main srv u p = (s2, Crashed IndexError)) /\
  (forall d, products = PyDict d -> main srv u p = (s2, Crashed (KeyError_int 0))) /\
  (iterable products = false -> main srv u p = (s2, Crashed (Uncaught TypeError))) /\
  map endpoint (wire s2) =
    [(GET, LOGIN_URL); (POST, LOGIN_PROCESS_URL); (GET, POSTLOGIN_URL);
     (POST, SEARCH_URL)].
Proof.
  intros L S.
  destruct (login_endpoints _ _ _ _ L) as (es & W1 & _ & F1).
  rewrite (F1 _ eq_refl) in W1.
  pose proof (read_endpoints srv (SearchKeyword "신발") "products" _ _ _ S eq_refl) as W2.
  rewrite W1 in W2.
  unfold main. change {| self := __init__ u p None; wire := [] |} with (fresh u p).
  rewrite L, S. repeat split.
  - by intros ->.
  - by intros d ->.
  - by intros ->.
  - exact W2.
Qed.

(* ===================================================================== *)
(** * The further properties at concrete runs *)
(* ===================================================================== *)

Example first_item_of_string :
  first_item (PyStr "신발") = inr (PyStr "신") /\
  first_item (PyStr "ab") = inr (PyStr "a") /\
  first_item (PyStr "") = inl IndexError.
Proof. repeat split. Qed.

Example script_finishes :
  snd (main (shop catalogue) "u" "p") = Finished (PyStr "https://link.coupang.com/a/x") /\
  map endpoint (wire (fst (main (shop catalogue) "u" "p"))) = script_plan.
Proof. split; reflexivity. Qed.

(** A custom user agent, and the empty one. *)
Lemma init_user_agent_never_empty_witness :
  ("curl/8" <> "" /\ user_agent (__init__ "u" "p" (Some "curl/8")) = "curl/8") /\
  user_agent (__init__ "u" "p" (Some "")) = DEFAULT_USER_AGENT /\
  user_agent (__init__ "u" "p" (Some "")) <> "".
Proof.
  assert (N : "curl/8" <> "") by discriminate.
  split; [split; [exact N |] | split].
  - exact (proj1 (proj2 (proj2 (proj2 (proj2
             (init_user_agent_never_empty "u" "p" (Some "curl/8"))))))
             "curl/8" eq_refl N).
  - exact (proj2 (proj2 (proj2 (proj2 (proj2
             (init_user_agent_never_empty "u" "p" (Some ""))))))
             (or_intror eq_refl)).
  - exact (proj1 (proj2 (proj2 (proj2
             (init_user_agent_never_empty "u" "p" (Some "")))))).
Defined.

(** A custom header that differs from a default only in case. *)
Lemma get_headers_keys_witness :
  let c := __init__ "u" "p" None in
  let h : Headers := {[ "user-agent" := Some "curl/8" ]} in
  h !! "user-agent" = Some (Some "curl/8") /\
  __get_headers c (Some h) !! "user-agent" = Some (Some "curl/8") /\
  __get_headers c (Some h) !! "User-Agent" = Some (Some DEFAULT_USER_AGENT).
Proof.
  cbv zeta. split; [reflexivity |].
  exact (proj2 (get_headers_keys (__init__ "u" "p" None)
                  (Some ({[ "user-agent" := Some "curl/8" ]} : Headers)))
           (Some "curl/8") eq_refl).
Defined.

(** A GET with custom headers passed directly: the defaults are absent. *)
Lemma private_request_sends_witness :
  let srv := mock_server in
  let s := fresh "u" "p" in
  let hs : Headers := {[ "X-Custom" := Some "1" ]} in
  hs <> ∅ /\
  exists x,
    new_exchanges s (fst (private_request srv GET LOGIN_URL (Some hs) None None None s))
      = [x] /\
    headers (sent x) = hs /\
    headers (sent x) !! "User-Agent" = None /\
    allow_redirects (sent x) = Some true.
Proof.
  cbv zeta.
  assert (N : ({[ "X-Custom" := Some "1" ]} : Headers) <> ∅) by apply insert_non_empty.
  split; [exact N |].
  destruct (private_request_sends mock_server GET LOGIN_URL
              (Some ({[ "X-Custom" := Some "1" ]} : Headers)) None None None
              (fresh "u" "p")) as (x & Hx & _ & _ & _ & Hh & _ & Hg & _).
  exists x. split; [exact Hx |].
  pose proof (Hh _ eq_refl N) as E.
  split; [exact E |]. split; [rewrite E; reflexivity |].
  exact (proj2 (proj2 (Hg eq_refl))).
Defined.

(** A GET answered [302]: the response is returned and nothing is
    logged. *)
Lemma private_request_result_witness :
  let srv := answering 302 None in
  let s := fresh "u" "p" in
  let s' := fst (private_request srv GET LOGIN_URL None None None None s) in
  let r := snd (private_request srv GET LOGIN_URL None None None None s) in
  private_request srv GET LOGIN_URL None None None None s = (s', r) /\
  r = Returned {| status_code := 302; json_body := None |} /\
  logger (self s') = logger (self s) /\
  token (self s') = token (self s).
Proof.
  cbv zeta.
  assert (E : private_request (answering 302 None) GET LOGIN_URL None None None None
                (fresh "u" "p") =
              (fst (private_request (answering 302 None) GET LOGIN_URL None None None None
                      (fresh "u" "p")),
               snd (private_request (answering 302 None) GET LOGIN_URL None None None None
                      (fresh "u" "p")))) by reflexivity.
  split; [exact E |]. split; [reflexivity |].
  destruct (private_request_result _ _ _ _ _ _ _ _ _ _ E) as (x & _ & Ht & _ & Hl & _).
  split; [| exact Ht].
  exact (Hl {| status_code := 302; json_body := None |} eq_refl).
Defined.

(** A search by a logged-in client. *)
Lemma operations_keep_identity_witness :
  let srv := mock_server in
  let s := logged_in "abc123" in
  let s' := fst (run srv (SearchKeyword "shoes") s) in
  let r := snd (run srv (SearchKeyword "shoes") s) in
  run srv (SearchKeyword "shoes") s = (s', r) /\
  SearchKeyword "shoes" <> Login /\
  username (self s') = username (self s) /\
  password (self s') = password (self s) /\
  user_agent (self s') = user_agent (self s) /\
  logger (self s) `prefix_of` logger (self s') /\
  wire s `prefix_of` wire s' /\
  token (self s') = token (self s).
Proof.
  cbv zeta.
  assert (E : run mock_server (SearchKeyword "shoes") (logged_in "abc123") =
              (fst (run mock_server (SearchKeyword "shoes") (logged_in "abc123")),
               snd (run mock_server (SearchKeyword "shoes") (logged_in "abc123"))))
    by reflexivity.
  assert (N : SearchKeyword "shoes" <> Login) by discriminate.
  split; [exact E |]. split; [exact N |].
  destruct (operations_keep_identity _ _ _ _ _ E) as (H1 & H2 & H3 & H4 & H5 & H6).
  do 5 (split; [assumption |]). exact (H6 N).
Defined.


(** The network goes down after the first request of [login]: the
    record names the POST. *)
Lemma error_record_names_method_witness :
  let srv := drops_after_first in
  let s := fresh "u" "p" in
  let s' := fst (run srv Login s) in
  let r := snd (run srv Login s) in
  let x := login_x2 srv s in
  let e := ConnectionError "connection reset" in
  run srv Login s = (s', r) /\
  x ∈ new_exchanges s s' /\
  failed x = Some e /\
  new_records s s' =
    [{| levelname := ERROR; prefix := "POST request failed: "; arg := ArgExn e |}].
Proof.
  cbv zeta.
  assert (E : run drops_after_first Login (fresh "u" "p") =
              (fst (run drops_after_first Login (fresh "u" "p")),
               snd (run drops_after_first Login (fresh "u" "p")))) by reflexivity.
  assert (Hin : login_x2 drops_after_first (fresh "u" "p") ∈
                new_exchanges (fresh "u" "p")
                  (fst (run drops_after_first Login (fresh "u" "p")))).
  { change (new_exchanges _ _)
      with [login_x1 drops_after_first (fresh "u" "p");
            login_x2 drops_after_first (fresh "u" "p")].
    apply list_elem_of_further, list_elem_of_here. }
  assert (F : failed (login_x2 drops_after_first (fresh "u" "p")) =
              Some (ConnectionError "connection reset")) by reflexivity.
  split; [exact E |]. split; [exact Hin |]. split; [exact F |].
  exact (error_record_names_method _ _ _ _ _ _ _ E Hin F).
Defined.

(** The request of a search. *)
Lemma default_headers_always_sent_witness :
  let srv := mock_server in
  let s := logged_in "abc123" in
  let s' := fst (run srv (SearchKeyword "shoes") s) in
  let r := snd (run srv (SearchKeyword "shoes") s) in
  let x := search_x srv "shoes" s in
  run srv (SearchKeyword "shoes") s = (s', r) /\
  x ∈ new_exchanges s s' /\
  headers (sent x) !! "User-Agent" = Some (Some DEFAULT_USER_AGENT) /\
  headers (sent x) !! "accept-language" =
    Some (Some "ko,ko-KR;q=0.9,en;q=0.8,en-US;q=0.7").
Proof.
  cbv zeta.
  assert (E : run mock_server (SearchKeyword "shoes") (logged_in "abc123") =
              (fst (run mock_server (SearchKeyword "shoes") (logged_in "abc123")),
               snd (run mock_server (SearchKeyword "shoes") (logged_in "abc123"))))
    by reflexivity.
  assert (Hin : search_x mock_server "shoes" (logged_in "abc123") ∈
                new_exchanges (logged_in "abc123")
                  (fst (run mock_server (SearchKeyword "shoes") (logged_in "abc123")))).
  { change (new_exchanges _ _) with [search_x mock_server "shoes" (logged_in "abc123")].
    apply list_elem_of_here. }
  split; [exact E |]. split; [exact Hin |].
  exact (default_headers_always_sent _ _ _ _ _ _ E Hin).
Defined.

(** A search against [mock_server]: the result is the served
    [data.products]. *)
Lemma read_returns_iff_witness :
  let srv := mock_server in
  let s := logged_in "abc123" in
  let s' := fst (run srv (SearchKeyword "shoes") s) in
  let r := snd (run srv (SearchKeyword "shoes") s) in
  run srv (SearchKeyword "shoes") s = (s', r) /\
  result_field (SearchKeyword "shoes") = Some "products" /\
  r = Returned (PyList [PyDict {[ "productId" := PyInt 7 ]}]) /\
  exists x resp body d,
    new_exchanges s s' = [x] /\
    answer x = inr resp /\ ~ (400 <= status_code resp < 600) /\
    json_body resp = Some (PyDict body) /\
    body !! "data" = Some (PyDict d) /\
    d !! "products" = Some (PyList [PyDict {[ "productId" := PyInt 7 ]}]).
Proof.
  cbv zeta.
  assert (E : run mock_server (SearchKeyword "shoes") (logged_in "abc123") =
              (fst (run mock_server (SearchKeyword "shoes") (logged_in "abc123")),
               snd (run mock_server (SearchKeyword "shoes") (logged_in "abc123"))))
    by reflexivity.
  split; [exact E |]. split; [reflexivity |]. split; [reflexivity |].
  destruct (read_returns_iff mock_server (SearchKeyword "shoes") "products" _ _ _
              E eq_refl) as (x & Hx & Hiff).
  destruct (proj1 (Hiff (PyList [PyDict {[ "productId" := PyInt 7 ]}])) eq_refl)
    as (resp & body & d & H).
  exists x, resp, body, d. split; [exact Hx | exact H].
Defined.

(** A search answered [200] with [{"data": null}]. *)
Lemma response_shape_errors_witness :
  let doc := PyDict {[ "data" := PyNone ]} in
  let srv := serving doc in
  let s := logged_in "abc123" in
  let s' := fst (run srv (SearchKeyword "shoes") s) in
  let r := snd (run srv (SearchKeyword "shoes") s) in
  let x := search_x srv "shoes" s in
  let resp := {| status_code := 200; json_body := Some doc |} in
  run srv (SearchKeyword "shoes") s = (s', r) /\
  result_field (SearchKeyword "shoes") = Some "products" /\
  new_exchanges s s' = [x] /\
  answer x = inr resp /\
  ~ (400 <= status_code resp < 600) /\
  is_mapping PyNone = false /\
  r = Raised TypeError.
Proof.
  cbv zeta.
  assert (E : run (serving (PyDict {[ "data" := PyNone ]})) (SearchKeyword "shoes")
                (logged_in "abc123") =
              (fst (run (serving (PyDict {[ "data" := PyNone ]})) (SearchKeyword "shoes")
                      (logged_in "abc123")),
               snd (run (serving (PyDict {[ "data" := PyNone ]})) (SearchKeyword "shoes")
                      (logged_in "abc123")))) by reflexivity.
  assert (N : ~ (400 <= status_code
                   {| status_code := 200;
                      json_body := Some (PyDict {[ "data" := PyNone ]}) |} < 600)).
  { cbn [status_code]. lia. }
  split; [exact E |]. do 3 (split; [reflexivity |]). split; [exact N |].
  split; [reflexivity |].
  destruct (response_shape_errors _ (SearchKeyword "shoes") "products" _ _ _
              (search_x (serving (PyDict {[ "data" := PyNone ]})) "shoes"
                 (logged_in "abc123"))
              {| status_code := 200; json_body := Some (PyDict {[ "data" := PyNone ]}) |}
              E eq_refl eq_refl eq_refl N) as (_ & _ & _ & H & _).
  exact (H {[ "data" := PyNone ]} PyNone eq_refl eq_refl eq_refl).
Defined.


(** A search by a crawler that has just been constructed. *)
Lemma unauthenticated_request_is_sent_witness :
  let srv := mock_server in
  let s := {| self := __init__ "u" "p" None; wire := [] |} in
  let s' := fst (run srv (SearchKeyword "shoes") s) in
  let r := snd (run srv (SearchKeyword "shoes") s) in
  result_field (SearchKeyword "shoes") = Some "products" /\
  run srv (SearchKeyword "shoes") s = (s', r) /\
  r = Raised (RequestExn (HTTPError 401)) /\
  exists x,
    wire s' = [x] /\
    url (sent x) = SEARCH_URL /\
    headers (sent x) !! "X-Token" = Some None /\
    cookies_sent (sent x) = ∅.
Proof.
  cbv zeta.
  assert (E : run mock_server (SearchKeyword "shoes")
                {| self := __init__ "u" "p" None; wire := [] |} =
              (fst (run mock_server (SearchKeyword "shoes")
                      {| self := __init__ "u" "p" None; wire := [] |}),
               snd (run mock_server (SearchKeyword "shoes")
                      {| self := __init__ "u" "p" None; wire := [] |})))
    by reflexivity.
  split; [reflexivity |]. split; [exact E |]. split; [reflexivity |].
  exact (unauthenticated_request_is_sent mock_server (SearchKeyword "shoes") "products"
           "u" "p" None _ _ eq_refl E).
Defined.



(** The script with a wrong password. *)
Lemma script_login_refused_witness :
  let srv := mock_server in
  let s1 := fst (login srv (fresh "u" "wrong")) in
  let r1 := snd (login srv (fresh "u" "wrong")) in
  login srv (fresh "u" "wrong") = (s1, r1) /\
  Forall (fun x => failed x = None) (new_exchanges (fresh "u" "wrong") s1) /\
  cookies (self s1) !! "AFATK" = None /\
  main srv "u" "wrong" =
    (s1, Crashed (Exception "Login failed. Please check your username and password.")) /\
  map endpoint (wire s1) =
    [(GET, LOGIN_URL); (POST, LOGIN_PROCESS_URL); (GET, POSTLOGIN_URL)].
Proof.
  cbv zeta.
  assert (E : login mock_server (fresh "u" "wrong") =
              (fst (login mock_server (fresh "u" "wrong")),
               snd (login mock_server (fresh "u" "wrong")))) by reflexivity.
  assert (H : Forall (fun x => failed x = None)
                (new_exchanges (fresh "u" "wrong")
                   (fst (login mock_server (fresh "u" "wrong"))))).
  { change (new_exchanges _ _)
      with [login_x1 mock_server (fresh "u" "wrong");
            login_x2 mock_server (fresh "u" "wrong");
            login_x3 mock_server (fresh "u" "wrong")].
    repeat (constructor; [reflexivity |]). constructor. }
  assert (J : cookies (self (fst (login mock_server (fresh "u" "wrong")))) !! "AFATK"
              = None) by reflexivity.
  split; [exact E |]. split; [exact H |]. split; [exact J |].
  exact (script_login_refused _ _ _ _ _ E H J).
Defined.

(** The script against a shop that serves one product. *)
Lemma script_links_first_product_witness :
  let srv := shop catalogue in
  let s1 := fst (login srv (fresh "u" "p")) in
  let s2 := fst (search_keyword srv "신발" s1) in
  let first := PyDict {[ "productId" := PyInt 7 ]} in
  login srv (fresh "u" "p") = (s1, Returned true) /\
  search_keyword srv "신발" s1 = (s2, Returned (PyList [first])) /\
  exists x,
    wire (fst (main srv "u" "p")) = wire s2 ++ [x] /\
    url (sent x) = BANNER_URL /\
    json (sent x) = Some (PyDict {[ "product" := first ]}) /\
    headers (sent x) !! "X-Token" = Some (token (self s1)) /\
    snd (main srv "u" "p") =
      match snd (get_link srv first s2) with
      | Returned short_url => Finished short_url
      | Raised e => Crashed (Uncaught e)
      end.
Proof.
  cbv zeta.
  assert (L : login (shop catalogue) (fresh "u" "p") =
              (fst (login (shop catalogue) (fresh "u" "p")), Returned true))
    by reflexivity.
  assert (S : search_keyword (shop catalogue) "신발"
                (fst (login (shop catalogue) (fresh "u" "p"))) =
              (fst (search_keyword (shop catalogue) "신발"
                      (fst (login (shop catalogue) (fresh "u" "p")))),
               Returned (PyList [PyDict {[ "productId" := PyInt 7 ]}])))
    by reflexivity.
  split; [exact L |]. split; [exact S |].
  exact (script_links_first_product _ _ _ _ _ _ [] L S).
Defined.

(** The script against a shop whose search finds nothing. *)
Lemma script_unusable_products_witness :
  let srv := shop (products_doc 0) in
  let s1 := fst (login srv (fresh "u" "p")) in
  let s2 := fst (search_keyword srv "신발" s1) in
  login srv (fresh "u" "p") = (s1, Returned true) /\
  search_keyword srv "신발" s1 = (s2, Returned (PyList [])) /\
  main srv "u" "p" = (s2, Crashed IndexError) /\
  map endpoint (wire s2) =
    [(GET, LOGIN_URL); (POST, LOGIN_PROCESS_URL); (GET, POSTLOGIN_URL);
     (POST, SEARCH_URL)].
Proof.
  cbv zeta.
  assert (L : login (shop (products_doc 0)) (fresh "u" "p") =
              (fst (login (shop (products_doc 0)) (fresh "u" "p")), Returned true))
    by reflexivity.
  assert (S : search_keyword (shop (products_doc 0)) "신발"
                (fst (login (shop (products_doc 0)) (fresh "u" "p"))) =
              (fst (search_keyword (shop (products_doc 0)) "신발"
                      (fst (login (shop (products_doc 0)) (fresh "u" "p")))),
               Returned (PyList []))) by reflexivity.
  split; [exact L |]. split; [exact S |].
  destruct (script_unusable_products _ _ _ _ _ _ L S) as (H1 & _ & _ & H4).
  split; [exact (H1 eq_refl) | exact H4].
Defined.
